(** * Build orchestration of perspective-python ([python/perspective/setup.py])

    A shallow embedding of the [PSPBuild] and [PSPCheckSDist] commands:
    the CMake version probe, the assembly of the configure and build
    argument lists, the two blocking [subprocess] calls and the artifact
    check that runs before a source distribution is packaged.

    Everything the script reads from its surroundings (interpreter facts,
    [os.environ], [os.path], the behaviour of the processes it starts) is
    gathered in one record, [Host]; what it changes (processes started, the
    inherited output streams, directories created, paths probed) is the
    state [World], threaded through a state-and-exception monad. *)

From Stdlib Require Import String Ascii List ZArith Bool Lia DecimalString DecimalNat.
From stdpp Require Import base option list gmap strings.

Local Open Scope string_scope.
Local Open Scope list_scope.

(** ** Python strings *)

Module PyStr.

(** The backslash, code 92, and the line feed, code 10. *)
Definition backslash : ascii := Ascii false false true true true false true false.
Definition slash : ascii := Ascii true true true true false true false false.
Definition newline : ascii := Ascii false true false true false false false false.

(** [s.replace(old, new)] for one-character [old] and [new]. *)
Fixpoint replace (old new : ascii) (s : string) : string :=
  match s with
  | EmptyString => EmptyString
  | String c r => String (if Ascii.eqb c old then new else c) (replace old new r)
  end.

(** [c in s] for a one-character [c]. *)
Fixpoint has_char (c : ascii) (s : string) : bool :=
  match s with
  | EmptyString => false
  | String d r => Ascii.eqb d c || has_char c r
  end.

(** [pat in s]. *)
Fixpoint contains (pat s : string) : bool :=
  String.prefix pat s ||
  match s with
  | EmptyString => false
  | String _ r => contains pat r
  end.

(** [str(n)] for a non-negative [int]. *)
Definition of_nat (n : nat) : string := NilEmpty.string_of_uint (Nat.to_uint n).

(** [str(x)] for a value that is an [int] or [None]. *)
Definition of_opt_nat (x : option nat) : string :=
  match x with
  | Some n => of_nat n
  | None => "None"
  end.

(** [sep.join(xs)]. *)
Definition join (sep : string) (xs : list string) : string := String.concat sep xs.

(** [s.upper()] on ASCII letters. *)
Definition upper_char (c : ascii) : ascii :=
  let n := nat_of_ascii c in
  if (97 <=? n)%nat && (n <=? 122)%nat then ascii_of_nat (n - 32) else c.

Fixpoint upper (s : string) : string :=
  match s with
  | EmptyString => EmptyString
  | String c r => String (upper_char c) (upper r)
  end.

(** Truth value of a [str]: non-empty. *)
Definition truthy (s : string) : bool :=
  match s with
  | EmptyString => false
  | String _ _ => true
  end.

End PyStr.

(** ** Processes, exceptions and the world *)

(** An argument vector as the script builds it: the executable is whatever
    [which] returned, a path or [None]. *)
Record Cmd := mkCmd {
  argv0 : option string;
  argv_rest : list string
}.

(** The keyword arguments of a [subprocess] call.  [sp_env = None] inherits
    [os.environ]; [sp_cwd = None] keeps the working directory;
    [sp_stderr_to_stdout] is [stderr=subprocess.STDOUT]; [sp_capture] tells
    whether the caller reads the child's stdout through a pipe
    ([check_output]) or lets the child inherit the parent's ([check_call]). *)
Record Spawn := mkSpawn {
  sp_cmd : Cmd;
  sp_cwd : option string;
  sp_env : option (gmap string string);
  sp_stderr_to_stdout : bool;
  sp_capture : bool
}.

Inductive stream := Stdout | Stderr.

(** What a started process did: it could not be executed (the [OSError] of
    [Popen]), or it ran, wrote chunks to its two streams in some order and
    exited with a status. *)
Inductive proc_outcome :=
| LaunchError
| Exited (returncode : Z) (emitted : list (stream * string)).

Inductive exn :=
| OSError
| TypeError
| AttributeError
| UnicodeDecodeError
| RuntimeError (msg : string)
| CalledProcessError (returncode : Z) (cmd : Cmd) (output : option string)
| PyException (msg : string).

(** The [output] attribute of an exception, when it has one and it is set. *)
Definition exn_output (e : exn) : option string :=
  match e with
  | CalledProcessError _ _ o => o
  | _ => None
  end.

(** Facts about the interpreter and the host that the script only reads. *)
Record Host := mkHost {
  platform_system : string;
  sys_version_major : nat;
  sys_version_minor : nat;
  sys_executable : string;
  sys_prefix : string;
  sys_maxsize : Z;
  CPU_COUNT : option nat;
  os_environ : gmap string string;
  which : string -> option string;
  os_path_abspath : string -> string;
  os_path_join : string -> list string -> string;
  os_path_dirname : string -> string;
  dunder_file : string;
  (** [distutils.msvccompiler.get_build_version()] when it is a [str];
      [None] for any other value. *)
  msvc_build_version : option string;
  (** [bytes.decode()]; [None] when the bytes are not valid text. *)
  bytes_decode : string -> option string;
  (** The outcome of starting a process, given those started before. *)
  os_spawn : list Spawn -> Spawn -> proc_outcome
}.

(** What the script changes or leaves a trace in: the processes it has
    started, in order; what has been written to the streams it inherited;
    the paths that exist, which the script changes only through
    [os.makedirs]; the paths it has asked [os.path.exists] about, in
    order. *)
Record World := mkWorld {
  spawned : list Spawn;
  console : list (stream * string);
  fs : gset string;
  probed : list string
}.

Definition log_spawn (sp : Spawn) (w : World) : World :=
  mkWorld (spawned w ++ [sp]) (console w) (fs w) (probed w).

Definition log_console (out : list (stream * string)) (w : World) : World :=
  mkWorld (spawned w) (console w ++ out) (fs w) (probed w).

Definition log_probe (p : string) (w : World) : World :=
  mkWorld (spawned w) (console w) (fs w) (probed w ++ [p]).

Definition add_path (p : string) (w : World) : World :=
  mkWorld (spawned w) (console w) ({[ p ]} ∪ fs w) (probed w).

(** ** The monad of the script: state and exceptions *)

Inductive result (A : Type) :=
| Ok (a : A)
| Raise (e : exn).
Arguments Ok {A} a.
Arguments Raise {A} e.

Definition M (A : Type) : Type := World -> result A * World.

Definition ret {A} (a : A) : M A := fun w => (Ok a, w).

Definition raise {A} (e : exn) : M A := fun w => (Raise e, w).

Definition bind {A B} (m : M A) (k : A -> M B) : M B :=
  fun w =>
    match m w with
    | (Ok a, w') => k a w'
    | (Raise e, w') => (Raise e, w')
    end.

(** [try: m except OSError: h]. *)
Definition except_OSError {A} (m : M A) (handler : M A) : M A :=
  fun w =>
    match m w with
    | (Raise OSError, w') => handler w'
    | r => r
    end.

Notation "'let*' x ':=' m 'in' k" := (bind m (fun x => k))
  (at level 10, x name, m at level 100, k at level 200).
Notation "m '>>' k" := (bind m (fun _ => k))
  (at level 90, right associativity).

(** [for x in xs: body(x)]. *)
Fixpoint for_each {A} (xs : list A) (body : A -> M unit) : M unit :=
  match xs with
  | [] => ret tt
  | x :: rest => body x >> for_each rest body
  end.

(** ** The library calls the script makes *)

Section Library.

Variable h : Host.

(** The child's stdout as the parent reads it from a pipe. *)
Definition stdout_of (em : list (stream * string)) : string :=
  String.concat "" (map snd (List.filter (fun c => match fst c with Stdout => true | Stderr => false end) em)).

(** Everything the child wrote, in the order it wrote it. *)
Definition combined (em : list (stream * string)) : string :=
  String.concat "" (map snd em).

(** The chunks as they appear when stderr is the same file as stdout. *)
Definition merge_streams (em : list (stream * string)) : list (stream * string) :=
  map (fun c => (Stdout, snd c)) em.

(** What reaches the parent's own streams: with [stderr=STDOUT] the
    child's stderr is the child's stdout; a captured stdout reaches a
    pipe, not the parent's stream. *)
Definition to_console (sp : Spawn) (em : list (stream * string)) : list (stream * string) :=
  let merged := if sp_stderr_to_stdout sp then merge_streams em else em in
  if sp_capture sp
  then List.filter (fun c => match fst c with Stdout => false | Stderr => true end) merged
  else merged.

(** [Popen(...)] followed by [wait()]: an executable that is not a path
    is a [TypeError] before anything is started; otherwise the process is
    started (or fails to start, [OSError]) and runs to its end. *)
Definition popen_wait (sp : Spawn) : M (Z * list (stream * string)) :=
  fun w =>
    match argv0 (sp_cmd sp) with
    | None => (Raise TypeError, w)
    | Some _ =>
        match os_spawn h (spawned w) sp with
        | LaunchError => (Raise OSError, log_spawn sp w)
        | Exited rc em => (Ok (rc, em), log_console (to_console sp em) (log_spawn sp w))
        end
    end.

(** [subprocess.check_output(cmd)]. *)
Definition check_output (cmd : Cmd) : M string :=
  let* r := popen_wait (mkSpawn cmd None None false true) in
  let out := stdout_of (snd r) in
  if (fst r =? 0)%Z then ret out
  else raise (CalledProcessError (fst r) cmd (Some out)).

(** [subprocess.check_call(cmd, cwd=..., env=..., stderr=subprocess.STDOUT)]. *)
Definition check_call (cmd : Cmd) (cwd : string) (env : gmap string string) : M unit :=
  let* r := popen_wait (mkSpawn cmd (Some cwd) (Some env) true false) in
  if (fst r =? 0)%Z then ret tt
  else raise (CalledProcessError (fst r) cmd None).

(** [os.path.exists(p)]. *)
Definition os_path_exists (p : string) : M bool :=
  fun w => (Ok (bool_decide (p ∈ fs w)), log_probe p w).

(** [os.makedirs(p)], on a tree in which the directory can be made. *)
Definition os_makedirs (p : string) : M unit :=
  fun w => (Ok tt, add_path p w).

(** [print()]. *)
Definition print_empty : M unit :=
  fun w => (Ok tt, log_console [(Stdout, String PyStr.newline EmptyString)] w).

End Library.

(** ** The version pattern and [LooseVersion] *)

Module Version.

Definition is_digit (c : ascii) : bool :=
  let n := nat_of_ascii c in (48 <=? n)%nat && (n <=? 57)%nat.

Definition is_dot (c : ascii) : bool := Ascii.eqb c ".".

(** [\s] on text: the ASCII characters for which [str.isspace] holds. *)
Definition is_space (c : ascii) : bool :=
  let n := nat_of_ascii c in
  ((9 <=? n)%nat && (n <=? 13)%nat) || ((28 <=? n)%nat && (n <=? 32)%nat).

Fixpoint take_while (p : ascii -> bool) (s : string) : string :=
  match s with
  | EmptyString => EmptyString
  | String c r => if p c then String c (take_while p r) else EmptyString
  end.

Fixpoint drop_while (p : ascii -> bool) (s : string) : string :=
  match s with
  | EmptyString => EmptyString
  | String c r => if p c then drop_while p r else s
  end.

Fixpoint strip_prefix (pre s : string) : option string :=
  match pre, s with
  | EmptyString, _ => Some s
  | String a pre', String b s' => if Ascii.eqb a b then strip_prefix pre' s' else None
  | String _ _, EmptyString => None
  end.

(** The pattern [version\s*([\d.]+)] anchored at the start of [s]; the
    result is group 1.  The two classes are disjoint, so the greedy
    choice for [\s*] is the only one that can succeed. *)
Definition match_at (s : string) : option string :=
  match strip_prefix "version" s with
  | None => None
  | Some r =>
      match take_while (fun c => is_digit c || is_dot c) (drop_while is_space r) with
      | EmptyString => None
      | g => Some g
      end
  end.

(** [re.search(r"version\s*([\d.]+)", s)], then [.group(1)]: the leftmost
    position at which the pattern matches.  [None] is the [None] that
    [re.search] returns. *)
Fixpoint re_search (s : string) : option string :=
  match match_at s with
  | Some g => Some g
  | None =>
      match s with
      | EmptyString => None
      | String _ r => re_search r
      end
  end.

(** [LooseVersion(s).version] for a string of digits and dots: the
    maximal runs of digits, each turned into an integer by [int]; dots
    and empty pieces are dropped.  [cur] is the value of the run being
    read, most significant digit first. *)
Fixpoint components (cur : option nat) (s : string) : list nat :=
  match s with
  | EmptyString => match cur with Some n => [n] | None => [] end
  | String c r =>
      if is_digit c
      then components (Some (10 * (default 0 cur) + (nat_of_ascii c - 48))) r
      else match cur with
           | Some n => n :: components None r
           | None => components None r
           end
  end.

Definition LooseVersion (s : string) : list nat := components None s.

(** [a < b] on lists of integers. *)
Fixpoint list_lt (a b : list nat) : bool :=
  match a, b with
  | _, [] => false
  | [], _ :: _ => true
  | x :: a', y :: b' => (x <? y)%nat || ((x =? y)%nat && list_lt a' b')
  end.

(** [v < "3.1.0"]: the string is parsed as a [LooseVersion] first. *)
Definition lt_str (v : list nat) (s : string) : bool := list_lt v (LooseVersion s).

End Version.

(** ** The script *)

(** [PSPExtension]: a name and the absolute source directory. *)
Record PSPExtension := mkExt {
  ext_name : string;
  sourcedir : string
}.

(** The attributes of the [build_ext] command that [PSPBuild] reads. *)
Record PSPBuild := mkBuild {
  debug : bool;
  build_temp : string;
  extensions : list PSPExtension;
  get_ext_fullpath : string -> string
}.

Section Script.

Variable h : Host.

Abbreviation abspath := (os_path_abspath h).
Abbreviation join := (os_path_join h).
Abbreviation unbackslash := (PyStr.replace PyStr.backslash PyStr.slash).

(** [here = os.path.abspath(os.path.dirname(__file__))] *)
Definition here : string := abspath (os_path_dirname h (dunder_file h)).

(** [PSPExtension.__init__(self, name, sourcedir="dist")] *)
Definition PSPExtension_init (name : string) (dir : string) : PSPExtension :=
  mkExt name (abspath dir).

Definition is_windows : bool := String.eqb (platform_system h) "Windows".

Section BuildExtension.

Variable self : PSPBuild.
Variable ext : PSPExtension.

Definition extdir : string :=
  abspath (os_path_dirname h (get_ext_fullpath self (ext_name ext))).

Definition cfg : string := if debug self then "Debug" else "Release".

Definition PYTHON_VERSION : string :=
  PyStr.of_nat (sys_version_major h) +:+ "." +:+ PyStr.of_nat (sys_version_minor h).

(** The list literal bound to [cmake_args]. *)
Definition cmake_args_common : list string :=
  [ "-DCMAKE_LIBRARY_OUTPUT_DIRECTORY="
      +:+ unbackslash (abspath (join extdir ["perspective"; "table"]));
    "-DCMAKE_BUILD_TYPE=" +:+ cfg;
    "-DPSP_CPP_BUILD=1";
    "-DPSP_WASM_BUILD=0";
    "-DPSP_PYTHON_BUILD=1";
    "-DPSP_PYTHON_VERSION=" +:+ PYTHON_VERSION;
    "-DPython_ADDITIONAL_VERSIONS=" +:+ PYTHON_VERSION;
    "-DPython_FIND_VERSION=" +:+ PYTHON_VERSION;
    unbackslash ("-DPython_EXECUTABLE=" +:+ sys_executable h);
    unbackslash ("-DPython_ROOT_DIR=" +:+ sys_prefix h);
    unbackslash ("-DPython_ROOT=" +:+ sys_prefix h);
    unbackslash ("-DPSP_CMAKE_MODULE_PATH=" +:+ join (sourcedir ext) ["cmake"]);
    unbackslash ("-DPSP_CPP_SRC=" +:+ sourcedir ext);
    "-DPSP_PYTHON_SRC=" +:+ unbackslash (join (sourcedir ext) [".."; "perspective"]) ].

(** The generator table with its default. *)
Definition msvc : string :=
  match msvc_build_version h with
  | Some v =>
      if String.eqb v "12" then "Visual Studio 12 2013"
      else if String.eqb v "14" then "Visual Studio 14 2015"
      else if String.eqb v "14.1" then "Visual Studio 15 2017"
      else "Visual Studio 15 2017"
  | None => "Visual Studio 15 2017"
  end.

(** [os.environ.get("PSP_GENERATOR", msvc)] *)
Definition generator : string := default msvc (os_environ h !! "PSP_GENERATOR").

(** [cmake_args] once the platform branch has run. *)
Definition cmake_args : list string :=
  if is_windows
  then
    (cmake_args_common
       ++ [ unbackslash ("-DCMAKE_LIBRARY_OUTPUT_DIRECTORY_" +:+ PyStr.upper cfg
                           +:+ "=" +:+ extdir);
            "-G";
            generator ])
      ++ (if (sys_maxsize h >? 2 ^ 32)%Z then ["-A"; "x64"] else [])
  else cmake_args_common ++ ["-DCMAKE_BUILD_TYPE=" +:+ cfg].

(** [os.environ.get("DOCKER", "")] as a condition. *)
Definition docker : bool := PyStr.truthy (default "" (os_environ h !! "DOCKER")).

(** [build_args] once the platform branch has run. *)
Definition build_args : list string :=
  ["--config"; cfg]
    ++ (if is_windows
        then [ "--";
               "/m:" +:+ PyStr.of_opt_nat (CPU_COUNT h);
               "/p:Configuration=" +:+ cfg ]
        else [ "--";
               if docker then "-j2" else "-j" +:+ PyStr.of_opt_nat (CPU_COUNT h) ]).

(** [env = os.environ.copy()] and the two assignments to it. *)
Definition env : gmap string string :=
  <["OSX_DEPLOYMENT_TARGET" := "10.9"]> (<["PSP_ENABLE_PYTHON" := "1"]> (os_environ h)).

Variable cmake_cmd : option string.

Definition configure_cmd : Cmd :=
  mkCmd cmake_cmd ([abspath (sourcedir ext)] ++ cmake_args).

Definition build_cmd : Cmd :=
  mkCmd cmake_cmd (["--build"; "."] ++ build_args).

(** The two processes as [check_call] starts them. *)
Definition configure_spawn : Spawn :=
  mkSpawn configure_cmd (Some (build_temp self)) (Some env) true false.

Definition build_spawn : Spawn :=
  mkSpawn build_cmd (Some (build_temp self)) (Some env) true false.

(** [PSPBuild.build_extension_cmake(self, ext)]; [cmake_cmd] is
    [self.cmake_cmd], set by [run_cmake]. *)
Definition build_extension_cmake : M unit :=
  let* present := os_path_exists (build_temp self) in
  (if negb present then os_makedirs (build_temp self) else ret tt) >>
  check_call h configure_cmd (build_temp self) env >>
  check_call h build_cmd (build_temp self) env >>
  print_empty.

End BuildExtension.

Section RunCmake.

Variable self : PSPBuild.

Definition probe_cmd : Cmd := mkCmd (which h "cmake") ["--version"].

Definition probe_spawn : Spawn := mkSpawn probe_cmd None None false true.

Definition cmake_missing : string :=
  "CMake must be installed to build the following extensions: "
    +:+ PyStr.join ", " (map ext_name (extensions self)).

Definition cmake_too_old : string := "CMake >= 3.1.0 is required on Windows".

(** The part of [run_cmake] before its loop: the probe of
    [cmake --version] and, on Windows, the version test. *)
Definition version_probe : M unit :=
  let* out :=
    except_OSError (check_output h probe_cmd) (raise (RuntimeError cmake_missing)) in
  if is_windows
  then
    match bytes_decode h out with
    | None => raise UnicodeDecodeError
    | Some text =>
        match Version.re_search text with
        | None => raise AttributeError
        | Some g =>
            if Version.lt_str (Version.LooseVersion g) "3.1.0"
            then raise (RuntimeError cmake_too_old)
            else ret tt
        end
    end
  else ret tt.

(** [PSPBuild.run_cmake(self)] *)
Definition run_cmake : M unit :=
  version_probe >>
  for_each (extensions self)
    (fun ext => build_extension_cmake self ext (which h "cmake")).

(** [PSPBuild.run(self)] *)
Definition PSPBuild_run : M unit := run_cmake.

End RunCmake.

(** *** [PSPCheckSDist] *)

Inductive phase := NativeBuild | ScriptBuild.

Definition remedy (ph : phase) : string :=
  match ph with
  | NativeBuild => "yarn build_python"
  | ScriptBuild => "yarn build_js"
  end.

Definition installs (ph : phase) : string :=
  match ph with
  | NativeBuild => "cmake files"
  | ScriptBuild => "extension js files"
  end.

(** The message of the exception raised for [path]. *)
Definition missing_message (ph : phase) (path : string) : string :=
  "Path is missing! " +:+ path +:+ String PyStr.newline
    ("Must run `" +:+ remedy ph +:+ "` before building sdist so "
       +:+ installs ph +:+ " are installed").

(** One of the two loops of [run_check]: [for file in files], under
    [os.path.join(here, root, file)]. *)
Fixpoint check_present (ph : phase) (root : string) (files : list string) : M unit :=
  match files with
  | [] => ret tt
  | file :: rest =>
      let path := abspath (join here [root; file]) in
      let* present := os_path_exists path in
      if negb present
      then raise (PyException (missing_message ph path))
      else check_present ph root rest
  end.

(** [PSPCheckSDist.run_check(self)] *)
Definition run_check : M unit :=
  check_present NativeBuild "dist" ["CMakeLists.txt"; "cmake"; "src"] >>
  check_present ScriptBuild "perspective" ["labextension/package.json"; "nbextension/index.js"].

(** [PSPCheckSDist.run(self)]; [sdist_run] is the [run] of the packaging
    tool's own [sdist] command. *)
Definition PSPCheckSDist_run (sdist_run : M unit) : M unit :=
  run_check >> sdist_run.

(** The requirements of [run_check] in the order they are tested: the
    path and the phase that produces it. *)
Definition requirements : list (string * phase) :=
  map (fun file => (abspath (join here ["dist"; file]), NativeBuild))
      ["CMakeLists.txt"; "cmake"; "src"]
    ++ map (fun file => (abspath (join here ["perspective"; file]), ScriptBuild))
           ["labextension/package.json"; "nbextension/index.js"].

End Script.

(** ** Auxiliary definitions for the statements *)

(** All the strings an exception object holds: its message, or the
    arguments of the command and the captured output. *)
Definition exn_strings (e : exn) : list string :=
  match e with
  | RuntimeError msg | PyException msg => [msg]
  | CalledProcessError _ cmd out =>
      match argv0 cmd with Some exe => [exe] | None => [] end
        ++ argv_rest cmd
        ++ match out with Some o => [o] | None => [] end
  | OSError | TypeError | AttributeError | UnicodeDecodeError => []
  end.

(** The world once [build_temp] has been looked for and, when absent,
    created. *)
Definition prepared (self : PSPBuild) (w : World) : World :=
  if bool_decide (build_temp self ∈ fs w)
  then log_probe (build_temp self) w
  else add_path (build_temp self) (log_probe (build_temp self) w).

(** The loop of [run_check] over a list of paths with their phases: the
    two loops of the script are this one over [requirements] (see
    [run_check_reqs]). *)
Fixpoint check_reqs (rs : list (string * phase)) : M unit :=
  match rs with
  | [] => ret tt
  | (path, ph) :: rest =>
      let* present := os_path_exists path in
      if negb present
      then raise (PyException (missing_message ph path))
      else check_reqs rest
  end.

(** The world after the paths [ps] have been looked for, in order. *)
Definition probe_all (ps : list string) (w : World) : World :=
  mkWorld (spawned w) (console w) (fs w) (probed w ++ ps).

(** ** Concrete hosts, to run the script on *)

Module Demo.

(** [os.path.join] on relative components and [os.path.dirname] on a
    path with a directory part below the root, for paths that are already
    absolute and normal; [os.path.abspath] leaves such paths as they
    are. *)
Definition join_with (sep : string) (a : string) (ps : list string) : string :=
  fold_left (fun acc p => acc +:+ sep +:+ p) ps a.

(** The part of [s] before its last [/], when it has one. *)
Fixpoint split_last_slash (s : string) : option string :=
  match s with
  | EmptyString => None
  | String c r =>
      match split_last_slash r with
      | Some head => Some (String c head)
      | None => if Ascii.eqb c PyStr.slash then Some EmptyString else None
      end
  end.

Definition dirname (s : string) : string := default "" (split_last_slash s).

Definition host (system sep : string) (vars : gmap string string)
    (spawn : list Spawn -> Spawn -> proc_outcome) : Host :=
  {| platform_system := system;
     sys_version_major := 3;
     sys_version_minor := 8;
     sys_executable := "/usr/bin/python3";
     sys_prefix := "/usr";
     sys_maxsize := 2 ^ 63 - 1;
     CPU_COUNT := Some 8%nat;
     os_environ := vars;
     which := fun x => Some ("/usr/bin/" +:+ x);
     os_path_abspath := fun p => p;
     os_path_join := join_with sep;
     os_path_dirname := dirname;
     dunder_file := "/repo/python/perspective/setup.py";
     msvc_build_version := None;
     bytes_decode := Some;
     os_spawn := spawn |}.

(** A tool that runs and succeeds silently, whatever it is asked. *)
Definition quiet : list Spawn -> Spawn -> proc_outcome := fun _ _ => Exited 0 [].

(** A tool scripted by the number of processes started before it. *)
Definition scripted (script : list proc_outcome) : list Spawn -> Spawn -> proc_outcome :=
  fun before _ => nth (length before) script (Exited 0 []).

Definition linux (vars : gmap string string) : Host := host "Linux" "/" vars quiet.

Definition windows (vars : gmap string string) : Host :=
  host "Windows" (String PyStr.backslash EmptyString) vars quiet.

Definition self : PSPBuild :=
  {| debug := false;
     build_temp := "/repo/python/perspective/build/temp";
     extensions := [PSPExtension_init (linux ∅) "perspective" "/repo/python/perspective/dist"];
     get_ext_fullpath := fun name => "/repo/python/perspective/build/lib/" +:+ name +:+ ".so" |}.

Definition ext : PSPExtension :=
  PSPExtension_init (linux ∅) "perspective" "/repo/python/perspective/dist".

Definition fresh : World := mkWorld [] [] ∅ [].

End Demo.

(** A tool whose first run, the configure step, fails after writing to
    both of its streams. *)
Definition failing_configure : Host :=
  Demo.host "Linux" "/" ∅
    (Demo.scripted
       [Exited 1 [(Stdout, "-- Configuring incomplete"); (Stderr, "CMake Error: boom")]]).

(** A host on which [cmake] cannot be started, and one on which
    [cmake --version] runs and exits with status 1. *)
Definition probe_cannot_start : Host :=
  Demo.host "Linux" "/" ∅ (Demo.scripted [LaunchError]).

Definition probe_exits_nonzero : Host :=
  Demo.host "Linux" "/" ∅ (Demo.scripted [Exited 1 [(Stderr, "cmake: cannot run")]]).

(** Windows hosts on which [cmake --version] prints [banner]. *)
Definition windows_printing (banner : string) : Host :=
  Demo.host "Windows" (String PyStr.backslash EmptyString) ∅
    (Demo.scripted [Exited 0 [(Stdout, banner)]]).

(** A tree in which the native build has installed [CMakeLists.txt] and
    nothing else. *)
Definition half_built : World :=
  mkWorld [] [] {[ "/repo/python/perspective/dist/CMakeLists.txt" ]} [].

(** A generator name with a backslash in it. *)
Definition generator_with_backslash : string :=
  "C:" +:+ String PyStr.backslash "gen".

(** ** Module level: the binding of [which] and the requirement lists *)

Module Setup.

(** The binding of [which] at import: [shutil.which] when it can be
    imported, else [backports.shutil_which.which] when that can, else the
    function that returns its argument.  [None] stands for a failed
    import. *)
Definition bind_which (shutil_which backports_which : option (string -> option string))
    : string -> option string :=
  match shutil_which with
  | Some f => f
  | None =>
      match backports_which with
      | Some f => f
      | None => fun x => Some x
      end
  end.

(** [requires] after the conditional [+=]; [major] is
    [sys.version_info.major]. *)
Definition requires (major : nat) : list string :=
  [ "ipywidgets>=7.5.1";
    "future>=0.16.0";
    "numpy>=1.13.1";
    "pandas>=0.22.0";
    "python-dateutil>=2.8.0";
    "six>=1.11.0";
    "tornado>=4.5.3";
    "traitlets>=4.3.2" ]
    ++ (if (major <? 3)%nat then ["backports.shutil-which"] else []).

Definition requires_dev_py2 (major : nat) : list string :=
  [ "Faker>=1.0.0";
    "flake8>=3.7.8";
    "jupyter_packaging";
    "mock";
    "pybind11>=2.4.0";
    "pyarrow>=0.16.0";
    "pytest>=4.3.0";
    "pytest-cov>=2.6.1";
    "pytest-check-links";
    "pytest-tornado";
    "pytz>=2018.9";
    "Sphinx>=1.8.4";
    "sphinx-markdown-builder>=0.5.2" ]
    ++ requires major.

Definition requires_dev (major : nat) : list string :=
  [ "flake8-black>=0.2.0"; "black==20.8b1" ] ++ requires_dev_py2 major.

End Setup.

(** ** Further definitions for the statements *)

(** The processes a run starts for the extensions [exts], in order. *)
Definition build_spawns (h : Host) (self : PSPBuild) (exe : string)
    (exts : list PSPExtension) : list Spawn :=
  List.concat
    (map (fun ext => [configure_spawn h self ext (Some exe); build_spawn h self (Some exe)])
         exts).

(** What the selection of the generator adds to [cmake_args]: the
    generator after [-G] and, for a 64-bit interpreter, the architecture;
    nothing off Windows. *)
Definition generator_args (h : Host) : list string :=
  if is_windows h
  then ["-G"; generator h] ++ (if (sys_maxsize h >? 2 ^ 32)%Z then ["-A"; "x64"] else [])
  else [].

(** A version as the triple (major, minor, patch) of its first three
    components, a missing component counting as 0, and the order of
    triples: first by major, then by minor, then by patch. *)
Definition leading_triple (v : list nat) : nat * nat * nat :=
  (nth 0 v 0%nat, nth 1 v 0%nat, nth 2 v 0%nat).

Definition triple_ltb (x y : nat * nat * nat) : bool :=
  match x, y with
  | (a, b, c), (a', b', c') =>
      (a <? a')%nat
      || ((a =? a')%nat && ((b <? b')%nat || ((b =? b')%nat && (c <? c')%nat)))
  end.

(** The text of a version with the components [v], joined by dots. *)
Definition dotted_list (v : list nat) : string :=
  PyStr.join "." (map PyStr.of_nat v).

(** An extension whose source directory is written with backslashes. *)
Definition ext_backslashed : PSPExtension :=
  mkExt "perspective"
    ("C:" +:+ String PyStr.backslash ("perspective" +:+ String PyStr.backslash "dist")).

(** Every character of [s] satisfies [p]. *)
Fixpoint all_chars (p : ascii -> bool) (s : string) : bool :=
  match s with
  | EmptyString => true
  | String c r => p c && all_chars p r
  end.

(** [s] is empty or starts with a character that [p] rejects. *)
Definition stops (p : ascii -> bool) (s : string) : bool :=
  match s with
  | EmptyString => true
  | String c _ => negb (p c)
  end.

(** The text [a.b.c]. *)
Definition dotted (a b c : nat) : string :=
  PyStr.of_nat a +:+ "." +:+ PyStr.of_nat b +:+ "." +:+ PyStr.of_nat c.

(** [h] with another binding of [which]. *)
Definition with_which (f : string -> option string) (h : Host) : Host :=
  {| platform_system := platform_system h;
     sys_version_major := sys_version_major h;
     sys_version_minor := sys_version_minor h;
     sys_executable := sys_executable h;
     sys_prefix := sys_prefix h;
     sys_maxsize := sys_maxsize h;
     CPU_COUNT := CPU_COUNT h;
     os_environ := os_environ h;
     which := f;
     os_path_abspath := os_path_abspath h;
     os_path_join := os_path_join h;
     os_path_dirname := os_path_dirname h;
     dunder_file := dunder_file h;
     msvc_build_version := msvc_build_version h;
     bytes_decode := bytes_decode h;
     os_spawn := os_spawn h |}.

(** A second extension and a command that builds two. *)
Definition ext_extra : PSPExtension :=
  PSPExtension_init (Demo.linux ∅) "perspective_extra" "/repo/python/perspective/extra".

Definition self_two : PSPBuild :=
  {| debug := false;
     build_temp := "/repo/python/perspective/build/temp";
     extensions := [Demo.ext; ext_extra];
     get_ext_fullpath := fun name => "/repo/python/perspective/build/lib/" +:+ name +:+ ".so" |}.

(** A third extension and a command that builds three. *)
Definition ext_third : PSPExtension :=
  PSPExtension_init (Demo.linux ∅) "perspective_third" "/repo/python/perspective/third".

Definition self_three : PSPBuild :=
  {| debug := true;
     build_temp := "/repo/python/perspective/build/temp";
     extensions := [Demo.ext; ext_extra; ext_third];
     get_ext_fullpath := fun name => "/repo/python/perspective/build/lib/" +:+ name +:+ ".so" |}.

(** A tool that fails at the fourth process started: the probe and the
    two steps of the first extension succeed, the configure step of the
    second fails. *)
Definition second_configure_fails : Host :=
  Demo.host "Linux" "/" ∅
    (Demo.scripted [Exited 0 []; Exited 0 []; Exited 0 []; Exited 3 [(Stderr, "error")]]).

(** A tree with everything [run_check] asks for. *)
Definition all_built : World :=
  mkWorld [] []
    {[ "/repo/python/perspective/dist/CMakeLists.txt";
       "/repo/python/perspective/dist/cmake";
       "/repo/python/perspective/dist/src";
       "/repo/python/perspective/perspective/labextension/package.json";
       "/repo/python/perspective/perspective/nbextension/index.js" ]} [].

(** A packaging step that leaves a line on the console. *)
Definition sdist_stub : M unit :=
  fun w => (Ok tt, log_console [(Stdout, "running sdist")] w).

(** ** Sample runs *)

Example re_search_banner :
  Version.re_search "cmake version 3.16.3" = Some "3.16.3".
Proof. reflexivity. Qed.

Example LooseVersion_threshold : Version.LooseVersion "3.1.0" = [3; 1; 0]%nat.
Proof. reflexivity. Qed.

Example LooseVersion_short_is_below : Version.lt_str (Version.LooseVersion "3.1") "3.1.0" = true.
Proof. reflexivity. Qed.

Example demo_cmake_args_linux :
  cmake_args (Demo.linux ∅) Demo.self Demo.ext =
    [ "-DCMAKE_LIBRARY_OUTPUT_DIRECTORY=/repo/python/perspective/build/lib/perspective/table";
      "-DCMAKE_BUILD_TYPE=Release";
      "-DPSP_CPP_BUILD=1";
      "-DPSP_WASM_BUILD=0";
      "-DPSP_PYTHON_BUILD=1";
      "-DPSP_PYTHON_VERSION=3.8";
      "-DPython_ADDITIONAL_VERSIONS=3.8";
      "-DPython_FIND_VERSION=3.8";
      "-DPython_EXECUTABLE=/usr/bin/python3";
      "-DPython_ROOT_DIR=/usr";
      "-DPython_ROOT=/usr";
      "-DPSP_CMAKE_MODULE_PATH=/repo/python/perspective/dist/cmake";
      "-DPSP_CPP_SRC=/repo/python/perspective/dist";
      "-DPSP_PYTHON_SRC=/repo/python/perspective/dist/../perspective";
      "-DCMAKE_BUILD_TYPE=Release" ].
Proof. vm_compute. reflexivity. Qed.

Example demo_cmake_args_windows_tail :
  skipn 14 (cmake_args (Demo.windows ∅) Demo.self Demo.ext)
    = [ "-DCMAKE_LIBRARY_OUTPUT_DIRECTORY_RELEASE=/repo/python/perspective/build/lib";
        "-G"; "Visual Studio 15 2017"; "-A"; "x64" ].
Proof. vm_compute. reflexivity. Qed.

Example demo_build_args_linux :
  build_args (Demo.linux ∅) Demo.self = ["--config"; "Release"; "--"; "-j8"].
Proof. vm_compute. reflexivity. Qed.

Example demo_build_args_docker :
  build_args (Demo.linux {[ "DOCKER" := "1" ]}) Demo.self = ["--config"; "Release"; "--"; "-j2"].
Proof. vm_compute. reflexivity. Qed.

(** ** Facts about strings *)

Section StringFacts.

Lemma has_char_app c (a b : string) :
  PyStr.has_char c (a +:+ b) = PyStr.has_char c a || PyStr.has_char c b.
Proof.
  induction a as [|d a IH]; simpl; [reflexivity|].
  rewrite IH. apply orb_assoc.
Qed.

Lemma has_char_replace old new s :
  Ascii.eqb new old = false ->
  PyStr.has_char old (PyStr.replace old new s) = false.
Proof.
  intros Hne. induction s as [|c s IH]; cbn; [reflexivity|].
  rewrite IH, orb_false_r.
  destruct (Ascii.eqb c old) eqn:E; [exact Hne | exact E].
Qed.

Lemma unbackslash_clean s :
  PyStr.has_char PyStr.backslash (PyStr.replace PyStr.backslash PyStr.slash s) = false.
Proof. apply has_char_replace. reflexivity. Qed.

Lemma uint_no_backslash d :
  PyStr.has_char PyStr.backslash (NilEmpty.string_of_uint d) = false.
Proof. induction d; cbn; auto. Qed.

Lemma of_nat_no_backslash n : PyStr.has_char PyStr.backslash (PyStr.of_nat n) = false.
Proof. apply uint_no_backslash. Qed.

End StringFacts.

(** ** The argument lists *)

Section Arguments.

Variable h : Host.
Variable self : PSPBuild.

Lemma cfg_cases : cfg self = "Debug" \/ cfg self = "Release".
Proof. unfold cfg. destruct (debug self); auto. Qed.

Lemma cfg_no_backslash : PyStr.has_char PyStr.backslash (cfg self) = false.
Proof. destruct cfg_cases as [-> | ->]; reflexivity. Qed.

Lemma PYTHON_VERSION_no_backslash :
  PyStr.has_char PyStr.backslash (PYTHON_VERSION h) = false.
Proof.
  unfold PYTHON_VERSION.
  rewrite !has_char_app, !of_nat_no_backslash. reflexivity.
Qed.

Lemma msvc_no_backslash : PyStr.has_char PyStr.backslash (msvc h) = false.
Proof.
  unfold msvc. destruct (msvc_build_version h) as [v|]; [|reflexivity].
  repeat (match goal with |- context [String.eqb ?a ?b] => destruct (String.eqb a b) end);
    reflexivity.
Qed.

Lemma cmake_args_common_no_backslash ext :
  Forall (fun a => PyStr.has_char PyStr.backslash a = false) (cmake_args_common h self ext).
Proof.
  unfold cmake_args_common.
  repeat (apply Forall_cons; split);
    try apply Forall_nil;
    rewrite ?has_char_app, ?unbackslash_clean, ?cfg_no_backslash,
      ?PYTHON_VERSION_no_backslash; reflexivity.
Qed.

Lemma generator_no_backslash :
  (forall g, os_environ h !! "PSP_GENERATOR" = Some g ->
             PyStr.has_char PyStr.backslash g = false) ->
  PyStr.has_char PyStr.backslash (generator h) = false.
Proof.
  intros Hg. unfold generator.
  destruct (os_environ h !! "PSP_GENERATOR") as [g|] eqn:E; simpl.
  - apply Hg. reflexivity.
  - apply msvc_no_backslash.
Qed.

(** Whatever the platform and the paths, a parameter that contains a
    backslash is the generator name taken from [PSP_GENERATOR]. *)
Lemma cmake_args_backslash_origin ext a :
  In a (cmake_args h self ext) ->
  PyStr.has_char PyStr.backslash a = true ->
  is_windows h = true /\ os_environ h !! "PSP_GENERATOR" = Some a.
Proof.
  pose proof (cmake_args_common_no_backslash ext) as Hc.
  rewrite Forall_forall in Hc.
  unfold cmake_args. destruct (is_windows h) eqn:Ew; intros Hin Hb.
  - split; [reflexivity|].
    rewrite !in_app_iff in Hin. destruct Hin as [[Hin | Hin] | Hin].
    + apply list_elem_of_In, Hc in Hin. congruence.
    + destruct Hin as [<- | [<- | [<- | []]]].
      * rewrite unbackslash_clean in Hb. discriminate.
      * discriminate.
      * unfold generator in *.
        destruct (os_environ h !! "PSP_GENERATOR") as [g|]; simpl in *; [reflexivity|].
        rewrite msvc_no_backslash in Hb. discriminate.
    + destruct (sys_maxsize h >? 2 ^ 32)%Z;
        [destruct Hin as [<- | [<- | []]]; discriminate | destruct Hin].
  - rewrite in_app_iff in Hin. destruct Hin as [Hin | [<- | []]].
    + apply list_elem_of_In, Hc in Hin. congruence.
    + rewrite has_char_app, cfg_no_backslash in Hb. discriminate.
Qed.

End Arguments.

(** With a generator name that holds no backslash the whole of
    [cmake_args] holds none. *)
Lemma cmake_args_clean_when_generator_clean (h : Host) (self : PSPBuild)
    (ext : PSPExtension) :
  (is_windows h = true ->
   forall g, os_environ h !! "PSP_GENERATOR" = Some g ->
             PyStr.has_char PyStr.backslash g = false) ->
  Forall (fun a => PyStr.has_char PyStr.backslash a = false) (cmake_args h self ext).
Proof.
  intros Hgen. apply List.Forall_forall. intros a Hin.
  destruct (PyStr.has_char PyStr.backslash a) eqn:Hb; [|reflexivity].
  destruct (cmake_args_backslash_origin h self ext a Hin Hb) as [Hw Hg].
  rewrite (Hgen Hw a Hg) in Hb. discriminate.
Qed.

(** C4: on every platform and for every output directory, source
    directory, interpreter path and interpreter prefix, whatever the
    environment holds, [cmake_args] is fifteen configuration parameters,
    each a [-D] definition, followed by what the selection of the
    generator adds (nothing off Windows); and no configuration parameter
    contains a backslash. *)
Theorem cmake_args_no_backslash (h : Host) (self : PSPBuild) (ext : PSPExtension) :
  exists parameters,
    cmake_args h self ext = parameters ++ generator_args h
    /\ length parameters = 15%nat
    /\ Forall (fun a => String.prefix "-D" a = true) parameters
    /\ Forall (fun a => PyStr.has_char PyStr.backslash a = false) parameters.
Proof.
  pose proof (cmake_args_common_no_backslash h self ext) as Hclean.
  assert (Hdef : Forall (fun a => String.prefix "-D" a = true) (cmake_args_common h self ext)).
  { unfold cmake_args_common.
    repeat (apply Forall_cons; split); try apply Forall_nil; reflexivity. }
  unfold cmake_args, generator_args. destruct (is_windows h).
  - exists (cmake_args_common h self ext
              ++ [PyStr.replace PyStr.backslash PyStr.slash
                    ("-DCMAKE_LIBRARY_OUTPUT_DIRECTORY_" +:+ PyStr.upper (cfg self)
                       +:+ "=" +:+ extdir h self ext)]).
    split; [rewrite <- !app_assoc; reflexivity|].
    split; [rewrite length_app; reflexivity|].
    split; apply Forall_app; (split; [assumption|]);
      apply List.Forall_cons; try apply List.Forall_nil.
    + destruct (cfg_cases self) as [-> | ->]; reflexivity.
    + apply unbackslash_clean.
  - exists (cmake_args_common h self ext ++ ["-DCMAKE_BUILD_TYPE=" +:+ cfg self]).
    split; [rewrite app_nil_r; reflexivity|].
    split; [rewrite length_app; reflexivity|].
    split; apply Forall_app; (split; [assumption|]);
      apply List.Forall_cons; try apply List.Forall_nil.
    + reflexivity.
    + rewrite has_char_app, cfg_no_backslash. reflexivity.
Qed.

(** The generator name is not a configuration parameter: it is passed on
    as PSP_GENERATOR gives it, after the fifteen parameters. *)
Example generator_passed_verbatim :
  skipn 15 (cmake_args (Demo.windows {[ "PSP_GENERATOR" := generator_with_backslash ]})
              Demo.self Demo.ext)
    = ["-G"; generator_with_backslash; "-A"; "x64"].
Proof. vm_compute. reflexivity. Qed.

(** Nor is the source directory that precedes [cmake_args] in the
    configure command: it is the result of [os.path.abspath] as it is,
    while the parameter that carries the same directory has slashes. *)
Example source_directory_argument :
  nth 0 (argv_rest (configure_cmd (Demo.windows ∅) Demo.self ext_backslashed
                      (Some "cmake"))) ""
    = sourcedir ext_backslashed
  /\ nth 13 (argv_rest (configure_cmd (Demo.windows ∅) Demo.self ext_backslashed
                          (Some "cmake"))) ""
     = "-DPSP_CPP_SRC=C:/perspective/dist".
Proof. split; vm_compute; reflexivity. Qed.

(** C10: on a host that is not Windows the configure arguments hold the
    build-type parameter exactly twice, both times with the value of
    [cfg], which is Debug when the debug flag is set and Release
    otherwise. *)
Theorem build_type_twice_on_posix (h : Host) (self : PSPBuild) (ext : PSPExtension) :
  is_windows h = false ->
  List.filter (String.prefix "-DCMAKE_BUILD_TYPE=") (cmake_args h self ext)
    = ["-DCMAKE_BUILD_TYPE=" +:+ cfg self; "-DCMAKE_BUILD_TYPE=" +:+ cfg self]
  /\ cfg self = (if debug self then "Debug" else "Release").
Proof.
  intros Hposix. split; [|reflexivity].
  unfold cmake_args. rewrite Hposix.
  unfold cmake_args_common, cfg. destruct (debug self); reflexivity.
Qed.

Lemma build_type_twice_on_posix_witness :
  List.filter (String.prefix "-DCMAKE_BUILD_TYPE=")
              (cmake_args (Demo.linux ∅) Demo.self Demo.ext)
    = ["-DCMAKE_BUILD_TYPE=Release"; "-DCMAKE_BUILD_TYPE=Release"].
Proof.
  exact (proj1 (build_type_twice_on_posix (Demo.linux ∅) Demo.self Demo.ext eq_refl)).
Defined.

(** ** The degree of parallelism *)

(** C3 (as amended): on a host that is not Windows the build step gets
    [-j2] when DOCKER is set to a non-empty value, whatever the CPU count,
    and [-j] followed by the CPU count when DOCKER is unset or empty; on
    Windows it gets [/m:] followed by the CPU count whatever DOCKER is. *)
Theorem build_args_parallelism (h : Host) (self : PSPBuild) :
  (is_windows h = false ->
     (forall v, os_environ h !! "DOCKER" = Some v -> v <> "" ->
        build_args h self = ["--config"; cfg self; "--"; "-j2"])
     /\ (os_environ h !! "DOCKER" = None \/ os_environ h !! "DOCKER" = Some "" ->
        build_args h self =
          ["--config"; cfg self; "--"; "-j" +:+ PyStr.of_opt_nat (CPU_COUNT h)]))
  /\ (is_windows h = true ->
        build_args h self =
          ["--config"; cfg self; "--"; "/m:" +:+ PyStr.of_opt_nat (CPU_COUNT h);
           "/p:Configuration=" +:+ cfg self]).
Proof.
  unfold build_args, docker. split; intros ->; [split|reflexivity].
  - intros v -> Hv. destruct v; [congruence | reflexivity].
  - intros [-> | ->]; reflexivity.
Qed.

Lemma build_args_parallelism_witness :
  build_args (Demo.linux {[ "DOCKER" := "1" ]}) Demo.self
    = ["--config"; "Release"; "--"; "-j2"]
  /\ build_args (Demo.linux ∅) Demo.self = ["--config"; "Release"; "--"; "-j8"]
  /\ build_args (Demo.windows ∅) Demo.self
     = ["--config"; "Release"; "--"; "/m:8"; "/p:Configuration=Release"].
Proof.
  split; [|split].
  - apply (proj1 (proj1 (build_args_parallelism (Demo.linux {[ "DOCKER" := "1" ]}) Demo.self)
                        eq_refl) "1"); [reflexivity | discriminate].
  - apply (proj2 (proj1 (build_args_parallelism (Demo.linux ∅) Demo.self) eq_refl)).
    left. reflexivity.
  - apply (proj2 (build_args_parallelism (Demo.windows ∅) Demo.self) eq_refl).
Defined.

(** C3 (as stated) fails: on Windows with DOCKER set and 8 CPUs the build
    step is given the degree 8, and [-j2] is not among its arguments. *)
Lemma build_args_docker_windows_counterexample :
  os_environ (Demo.windows {[ "DOCKER" := "1" ]}) !! "DOCKER" = Some "1"
  /\ CPU_COUNT (Demo.windows {[ "DOCKER" := "1" ]}) = Some 8%nat
  /\ build_args (Demo.windows {[ "DOCKER" := "1" ]}) Demo.self
     = ["--config"; "Release"; "--"; "/m:8"; "/p:Configuration=Release"]
  /\ existsb (String.eqb "-j2") (build_args (Demo.windows {[ "DOCKER" := "1" ]}) Demo.self)
     = false.
Proof. repeat split; vm_compute; reflexivity. Qed.

(** ** The environment of the two processes *)

(** C9 (as amended): the environment handed to the configure and build
    processes gives OSX_DEPLOYMENT_TARGET the fixed value 10.9 and
    PSP_ENABLE_PYTHON the value 1, whatever the ambient environment holds
    for them and on every platform; every other ambient variable is
    carried through unchanged. *)
Theorem subprocess_env_deployment_target (h : Host) :
  env h !! "OSX_DEPLOYMENT_TARGET" = Some "10.9"
  /\ env h !! "PSP_ENABLE_PYTHON" = Some "1"
  /\ (forall k, k <> "OSX_DEPLOYMENT_TARGET" -> k <> "PSP_ENABLE_PYTHON" ->
        env h !! k = os_environ h !! k)
  /\ (forall self ext cmd,
        sp_env (configure_spawn h self ext cmd) = Some (env h)
        /\ sp_env (build_spawn h self cmd) = Some (env h)).
Proof.
  unfold env. repeat split.
  - apply lookup_insert_eq.
  - rewrite lookup_insert_ne by discriminate. apply lookup_insert_eq.
  - intros k H1 H2. rewrite !lookup_insert_ne by congruence. reflexivity.
Qed.

Lemma subprocess_env_deployment_target_witness :
  env (Demo.linux {[ "HOME" := "/root" ]}) !! "HOME"
    = os_environ (Demo.linux {[ "HOME" := "/root" ]}) !! "HOME".
Proof.
  apply (proj1 (proj2 (proj2 (subprocess_env_deployment_target
                                (Demo.linux {[ "HOME" := "/root" ]})))));
    discriminate.
Defined.

(** C9 (as stated) fails: an ambient OSX_DEPLOYMENT_TARGET of 10.15 does
    not reach the processes, which see 10.9. *)
Lemma subprocess_env_ambient_counterexample :
  os_environ (Demo.linux {[ "OSX_DEPLOYMENT_TARGET" := "10.15" ]})
    !! "OSX_DEPLOYMENT_TARGET" = Some "10.15"
  /\ env (Demo.linux {[ "OSX_DEPLOYMENT_TARGET" := "10.15" ]})
       !! "OSX_DEPLOYMENT_TARGET" = Some "10.9"
  /\ (sp_env (configure_spawn (Demo.linux {[ "OSX_DEPLOYMENT_TARGET" := "10.15" ]})
                              Demo.self Demo.ext (Some "/usr/bin/cmake"))
        ≫= (.!! "OSX_DEPLOYMENT_TARGET")) = Some "10.9".
Proof. repeat split; vm_compute; reflexivity. Qed.

(** ** Running the two steps *)

Section Running.

Variable h : Host.

Lemma popen_wait_exited sp exe w rc em :
  argv0 (sp_cmd sp) = Some exe ->
  os_spawn h (spawned w) sp = Exited rc em ->
  popen_wait h sp w = (Ok (rc, em), log_console (to_console sp em) (log_spawn sp w)).
Proof. intros Hexe Hrun. unfold popen_wait. rewrite Hexe, Hrun. reflexivity. Qed.

Lemma popen_wait_launch_error sp exe w :
  argv0 (sp_cmd sp) = Some exe ->
  os_spawn h (spawned w) sp = LaunchError ->
  popen_wait h sp w = (Raise OSError, log_spawn sp w).
Proof. intros Hexe Hrun. unfold popen_wait. rewrite Hexe, Hrun. reflexivity. Qed.

Lemma check_call_nonzero cmd cwd vars exe w rc em :
  argv0 cmd = Some exe ->
  os_spawn h (spawned w) (mkSpawn cmd (Some cwd) (Some vars) true false) = Exited rc em ->
  rc <> 0%Z ->
  check_call h cmd cwd vars w
    = (Raise (CalledProcessError rc cmd None),
       log_console (merge_streams em)
         (log_spawn (mkSpawn cmd (Some cwd) (Some vars) true false) w)).
Proof.
  intros Hexe Hrun Hrc. unfold check_call, bind.
  rewrite (popen_wait_exited (mkSpawn cmd (Some cwd) (Some vars) true false) exe w rc em Hexe Hrun).
  simpl.
  destruct (Z.eqb_spec rc 0); [contradiction | reflexivity].
Qed.

Lemma check_call_zero cmd cwd vars exe w em :
  argv0 cmd = Some exe ->
  os_spawn h (spawned w) (mkSpawn cmd (Some cwd) (Some vars) true false) = Exited 0 em ->
  check_call h cmd cwd vars w
    = (Ok tt,
       log_console (merge_streams em)
         (log_spawn (mkSpawn cmd (Some cwd) (Some vars) true false) w)).
Proof.
  intros Hexe Hrun. unfold check_call, bind.
  rewrite (popen_wait_exited (mkSpawn cmd (Some cwd) (Some vars) true false) exe w 0 em Hexe Hrun).
  reflexivity.
Qed.

Variable self : PSPBuild.

Lemma spawned_prepared w : spawned (prepared self w) = spawned w.
Proof. unfold prepared. destruct (bool_decide _); reflexivity. Qed.

Lemma console_prepared w : console (prepared self w) = console w.
Proof. unfold prepared. destruct (bool_decide _); reflexivity. Qed.

Lemma build_temp_prepared w : build_temp self ∈ fs (prepared self w).
Proof.
  unfold prepared. destruct (bool_decide (build_temp self ∈ fs w)) eqn:E; simpl.
  - apply bool_decide_eq_true_1 in E. exact E.
  - set_solver.
Qed.

Variable ext : PSPExtension.
Variable cmake_cmd : option string.

Lemma build_extension_cmake_prepared w :
  build_extension_cmake h self ext cmake_cmd w
    = (check_call h (configure_cmd h self ext cmake_cmd) (build_temp self) (env h) >>
       check_call h (build_cmd h self cmake_cmd) (build_temp self) (env h) >>
       print_empty) (prepared self w).
Proof.
  unfold build_extension_cmake, prepared, bind at 1 2, os_path_exists, os_makedirs, ret.
  destruct (bool_decide (build_temp self ∈ fs w)); reflexivity.
Qed.

Lemma length_cmake_args : (15 <= length (cmake_args h self ext))%nat.
Proof.
  unfold cmake_args, cmake_args_common.
  destruct (is_windows h); [destruct (sys_maxsize h >? 2 ^ 32)%Z|];
    rewrite !length_app; simpl; lia.
Qed.

Lemma length_build_args : (length (build_args h self) <= 5)%nat.
Proof. unfold build_args. destruct (is_windows h); simpl; lia. Qed.

Lemma configure_is_not_build :
  configure_spawn h self ext cmake_cmd <> build_spawn h self cmake_cmd.
Proof.
  intros Heq.
  assert (Hlen : S (length (cmake_args h self ext)) = S (S (length (build_args h self)))).
  { exact (f_equal (fun sp => length (argv_rest (sp_cmd sp))) Heq). }
  pose proof length_cmake_args. pose proof length_build_args. lia.
Qed.

End Running.

Section Steps.

Variable h : Host.
Variable self : PSPBuild.
Variable ext : PSPExtension.
Variable exe : string.
Variable w : World.

Abbreviation conf := (configure_spawn h self ext (Some exe)).
Abbreviation build := (build_spawn h self (Some exe)).

Lemma configure_nonzero rc em :
  os_spawn h (spawned w) conf = Exited rc em ->
  rc <> 0%Z ->
  build_extension_cmake h self ext (Some exe) w
    = (Raise (CalledProcessError rc (configure_cmd h self ext (Some exe)) None),
       log_console (merge_streams em) (log_spawn conf (prepared self w))).
Proof.
  intros Hrun Hrc. rewrite build_extension_cmake_prepared.
  unfold bind at 1.
  rewrite (check_call_nonzero h _ _ _ exe (prepared self w) rc em); try reflexivity.
  - rewrite spawned_prepared. exact Hrun.
  - exact Hrc.
Qed.

Lemma build_nonzero em1 rc em :
  os_spawn h (spawned w) conf = Exited 0 em1 ->
  os_spawn h (spawned w ++ [conf]) build = Exited rc em ->
  rc <> 0%Z ->
  build_extension_cmake h self ext (Some exe) w
    = (Raise (CalledProcessError rc (build_cmd h self (Some exe)) None),
       log_console (merge_streams em)
         (log_spawn build
            (log_console (merge_streams em1) (log_spawn conf (prepared self w))))).
Proof.
  intros Hconf Hrun Hrc. rewrite build_extension_cmake_prepared.
  unfold bind at 1.
  rewrite (check_call_zero h _ _ _ exe (prepared self w) em1); try reflexivity.
  - unfold bind at 1.
    rewrite (check_call_nonzero h _ _ _ exe _ rc em); try reflexivity.
    + simpl. rewrite spawned_prepared. exact Hrun.
    + exact Hrc.
  - rewrite spawned_prepared. exact Hconf.
Qed.

(** Both steps succeeding, the call returns, having started the two
    processes in order, with [build_temp] in place. *)
Lemma both_steps_succeed em1 em2 :
  os_spawn h (spawned w) conf = Exited 0 em1 ->
  os_spawn h (spawned w ++ [conf]) build = Exited 0 em2 ->
  exists w',
    build_extension_cmake h self ext (Some exe) w = (Ok tt, w')
    /\ spawned w' = spawned w ++ [conf; build]
    /\ build_temp self ∈ fs w'.
Proof.
  intros Hconf Hbuild. rewrite build_extension_cmake_prepared.
  unfold bind at 1.
  rewrite (check_call_zero h _ _ _ exe (prepared self w) em1); try reflexivity.
  - unfold bind at 1.
    rewrite (check_call_zero h _ _ _ exe _ em2); try reflexivity.
    + eexists. split; [reflexivity|]. simpl. rewrite spawned_prepared, <- app_assoc.
      split; [reflexivity | apply build_temp_prepared].
    + simpl. rewrite spawned_prepared. exact Hbuild.
  - rewrite spawned_prepared. exact Hconf.
Qed.

End Steps.

(** C5: when the configure process exits with a nonzero status,
    [build_extension_cmake] raises, and the only process it has started is
    the configure step: the build step, a different process, is not
    started. *)
Theorem configure_failure_skips_build (h : Host) (self : PSPBuild) (ext : PSPExtension)
    (exe : string) (w : World) (rc : Z) (em : list (stream * string)) :
  os_spawn h (spawned w) (configure_spawn h self ext (Some exe)) = Exited rc em ->
  rc <> 0%Z ->
  exists e w',
    build_extension_cmake h self ext (Some exe) w = (Raise e, w')
    /\ spawned w' = spawned w ++ [configure_spawn h self ext (Some exe)]
    /\ configure_spawn h self ext (Some exe) <> build_spawn h self (Some exe).
Proof.
  intros Hrun Hrc. eexists _, _. split; [|split].
  - apply (configure_nonzero h self ext exe w rc em Hrun Hrc).
  - simpl. rewrite spawned_prepared. reflexivity.
  - apply configure_is_not_build.
Qed.

Lemma configure_failure_skips_build_witness :
  exists e w',
    build_extension_cmake failing_configure Demo.self Demo.ext (Some "/usr/bin/cmake") Demo.fresh
      = (Raise e, w')
    /\ spawned w'
       = spawned Demo.fresh
           ++ [configure_spawn failing_configure Demo.self Demo.ext (Some "/usr/bin/cmake")]
    /\ configure_spawn failing_configure Demo.self Demo.ext (Some "/usr/bin/cmake")
       <> build_spawn failing_configure Demo.self (Some "/usr/bin/cmake").
Proof.
  apply (configure_failure_skips_build failing_configure Demo.self Demo.ext "/usr/bin/cmake"
           Demo.fresh 1
           [(Stdout, "-- Configuring incomplete"); (Stderr, "CMake Error: boom")]).
  - reflexivity.
  - discriminate.
Defined.

(** C1 (as amended): when the configure step, or after a successful
    configure step the build step, exits with a nonzero status,
    [build_extension_cmake] raises [CalledProcessError] holding that status
    and the argument list of the failed step, with no captured output; the
    merged output of the steps that ran has gone to the inherited standard
    output instead. *)
Theorem failed_step_raises (h : Host) (self : PSPBuild) (ext : PSPExtension)
    (exe : string) (w : World) :
  (forall rc em,
     os_spawn h (spawned w) (configure_spawn h self ext (Some exe)) = Exited rc em ->
     rc <> 0%Z ->
     fst (build_extension_cmake h self ext (Some exe) w)
       = Raise (CalledProcessError rc (configure_cmd h self ext (Some exe)) None)
     /\ console (snd (build_extension_cmake h self ext (Some exe) w))
        = console w ++ merge_streams em)
  /\ (forall em1 rc em,
     os_spawn h (spawned w) (configure_spawn h self ext (Some exe)) = Exited 0 em1 ->
     os_spawn h (spawned w ++ [configure_spawn h self ext (Some exe)])
              (build_spawn h self (Some exe)) = Exited rc em ->
     rc <> 0%Z ->
     fst (build_extension_cmake h self ext (Some exe) w)
       = Raise (CalledProcessError rc (build_cmd h self (Some exe)) None)
     /\ console (snd (build_extension_cmake h self ext (Some exe) w))
        = console w ++ merge_streams em1 ++ merge_streams em).
Proof.
  split.
  - intros rc em Hrun Hrc.
    rewrite (configure_nonzero h self ext exe w rc em Hrun Hrc). simpl.
    rewrite console_prepared. auto.
  - intros em1 rc em Hconf Hrun Hrc.
    rewrite (build_nonzero h self ext exe w em1 rc em Hconf Hrun Hrc). simpl.
    rewrite console_prepared, <- app_assoc. auto.
Qed.

Lemma failed_step_raises_witness :
  fst (build_extension_cmake failing_configure Demo.self Demo.ext (Some "/usr/bin/cmake")
         Demo.fresh)
    = Raise (CalledProcessError 1
               (configure_cmd failing_configure Demo.self Demo.ext (Some "/usr/bin/cmake"))
               None)
  /\ console (snd (build_extension_cmake failing_configure Demo.self Demo.ext
                     (Some "/usr/bin/cmake") Demo.fresh))
     = console Demo.fresh
         ++ merge_streams
              [(Stdout, "-- Configuring incomplete"); (Stderr, "CMake Error: boom")].
Proof.
  apply (proj1 (failed_step_raises failing_configure Demo.self Demo.ext "/usr/bin/cmake"
                  Demo.fresh)).
  - reflexivity.
  - discriminate.
Defined.

(** C1 (as stated) fails: the configure step writes an error message and
    exits with status 1; the exception raised has no output, and none of
    the strings it holds contains the message. *)
Lemma failed_step_output_counterexample :
  os_spawn failing_configure (spawned Demo.fresh)
     (configure_spawn failing_configure Demo.self Demo.ext (Some "/usr/bin/cmake"))
    = Exited 1 [(Stdout, "-- Configuring incomplete"); (Stderr, "CMake Error: boom")]
  /\ fst (build_extension_cmake failing_configure Demo.self Demo.ext (Some "/usr/bin/cmake")
            Demo.fresh)
     = Raise (CalledProcessError 1
                (configure_cmd failing_configure Demo.self Demo.ext (Some "/usr/bin/cmake"))
                None)
  /\ exn_output
       (CalledProcessError 1
          (configure_cmd failing_configure Demo.self Demo.ext (Some "/usr/bin/cmake")) None)
     <> Some (combined [(Stdout, "-- Configuring incomplete"); (Stderr, "CMake Error: boom")])
  /\ existsb (PyStr.contains "CMake Error: boom")
       (exn_strings
          (CalledProcessError 1
             (configure_cmd failing_configure Demo.self Demo.ext (Some "/usr/bin/cmake"))
             None))
     = false.
Proof.
  split; [reflexivity|]. split; [vm_compute; reflexivity|].
  split; [discriminate | vm_compute; reflexivity].
Qed.

(** ** The version probe *)

Section Probe.

Variable h : Host.
Variable self : PSPBuild.
Variable exe : string.
Variable w : World.
Hypothesis Hwhich : which h "cmake" = Some exe.

Lemma probe_launch_error :
  os_spawn h (spawned w) (probe_spawn h) = LaunchError ->
  version_probe h self w
    = (Raise (RuntimeError (cmake_missing self)), log_spawn (probe_spawn h) w).
Proof.
  intros Hrun.
  unfold version_probe, bind, except_OSError, check_output, bind.
  pose proof (popen_wait_launch_error h (probe_spawn h) exe w Hwhich Hrun) as Hp.
  unfold probe_spawn in Hp. rewrite Hp. reflexivity.
Qed.

Lemma probe_nonzero rc em :
  os_spawn h (spawned w) (probe_spawn h) = Exited rc em ->
  rc <> 0%Z ->
  version_probe h self w
    = (Raise (CalledProcessError rc (probe_cmd h) (Some (stdout_of em))),
       log_console (to_console (probe_spawn h) em) (log_spawn (probe_spawn h) w)).
Proof.
  intros Hrun Hrc.
  unfold version_probe, bind, except_OSError, check_output, bind.
  pose proof (popen_wait_exited h (probe_spawn h) exe w rc em Hwhich Hrun) as Hp.
  unfold probe_spawn in Hp. rewrite Hp. simpl.
  destruct (Z.eqb_spec rc 0); [contradiction | reflexivity].
Qed.

(** After a successful probe only the version test remains. *)
Lemma probe_zero em :
  os_spawn h (spawned w) (probe_spawn h) = Exited 0 em ->
  fst (version_probe h self w)
    = if is_windows h
      then match bytes_decode h (stdout_of em) with
           | None => Raise UnicodeDecodeError
           | Some text =>
               match Version.re_search text with
               | None => Raise AttributeError
               | Some g =>
                   if Version.list_lt (Version.LooseVersion g) [3; 1; 0]%nat
                   then Raise (RuntimeError cmake_too_old)
                   else Ok tt
               end
           end
      else Ok tt.
Proof.
  intros Hrun.
  unfold version_probe, bind, except_OSError, check_output, bind.
  pose proof (popen_wait_exited h (probe_spawn h) exe w 0 em Hwhich Hrun) as Hp.
  unfold probe_spawn in Hp. rewrite Hp. simpl.
  destruct (is_windows h); [|reflexivity].
  destruct (bytes_decode h (stdout_of em)) as [text|]; [|reflexivity].
  destruct (Version.re_search text) as [g|]; [|reflexivity].
  change (Version.lt_str (Version.LooseVersion g) "3.1.0")
    with (Version.list_lt (Version.LooseVersion g) [3; 1; 0]%nat).
  destruct (Version.list_lt _ _); reflexivity.
Qed.

(** When [which] finds nothing the argument vector starts with [None],
    and the call fails before any process is started, with an error that
    the handler for [OSError] does not catch. *)
Lemma probe_without_executable (w0 : World) :
  which h "cmake" = None ->
  version_probe h self w0 = (Raise TypeError, w0).
Proof.
  intros Hnone.
  unfold version_probe, bind, except_OSError, check_output, bind, popen_wait.
  simpl. rewrite Hnone. reflexivity.
Qed.

(** Off Windows a successful probe returns at once. *)
Lemma probe_zero_posix em :
  is_windows h = false ->
  os_spawn h (spawned w) (probe_spawn h) = Exited 0 em ->
  version_probe h self w
    = (Ok tt, log_console (to_console (probe_spawn h) em) (log_spawn (probe_spawn h) w)).
Proof.
  intros Hposix Hrun.
  unfold version_probe, bind, except_OSError, check_output, bind.
  pose proof (popen_wait_exited h (probe_spawn h) exe w 0 em Hwhich Hrun) as Hp.
  unfold probe_spawn in Hp. rewrite Hp. simpl. rewrite Hposix. reflexivity.
Qed.

(** In a whole run off Windows, a configure step that fails for the first
    extension ends the run with two processes started: the probe and that
    configure step. *)
Lemma run_cmake_configure_failure ext rest em0 rc em :
  is_windows h = false ->
  extensions self = ext :: rest ->
  os_spawn h (spawned w) (probe_spawn h) = Exited 0 em0 ->
  os_spawn h (spawned w ++ [probe_spawn h]) (configure_spawn h self ext (Some exe))
    = Exited rc em ->
  rc <> 0%Z ->
  exists e w',
    run_cmake h self w = (Raise e, w')
    /\ spawned w' = spawned w ++ [probe_spawn h; configure_spawn h self ext (Some exe)].
Proof.
  intros Hposix Hext Hprobe Hconf Hrc.
  unfold run_cmake, bind.
  rewrite (probe_zero_posix em0 Hposix Hprobe), Hext, Hwhich. simpl. unfold bind.
  rewrite (configure_nonzero h self ext exe _ rc em); [| exact Hconf | exact Hrc].
  eexists _, _. split; [reflexivity|].
  simpl. rewrite spawned_prepared. simpl. rewrite <- app_assoc. reflexivity.
Qed.

(** A failed probe ends [run_cmake] where it ends [version_probe]. *)
Lemma run_cmake_probe_raises e w' :
  version_probe h self w = (Raise e, w') ->
  run_cmake h self w = (Raise e, w').
Proof. intros Hp. unfold run_cmake, bind. rewrite Hp. reflexivity. Qed.

End Probe.

(** The order of [LooseVersion] on three components is the order of
    triples. *)
Lemma list_lt_triple (a b c x y z : nat) :
  Version.list_lt [a; b; c] [x; y; z] = true
  <-> (a < x \/ (a = x /\ b < y) \/ (a = x /\ b = y /\ c < z))%nat.
Proof.
  simpl.
  destruct (Nat.ltb_spec a x), (Nat.eqb_spec a x),
    (Nat.ltb_spec b y), (Nat.eqb_spec b y), (Nat.ltb_spec c z);
    simpl; split; intros; try lia; try discriminate; try reflexivity.
Qed.

(** C2 (as amended): when the version command cannot be started (an
    [OSError]) the probe fails with the [RuntimeError] that names CMake as
    required; when it runs and exits with a nonzero status the probe fails
    with the [CalledProcessError] of that status and the captured standard
    output.  Either way [run_cmake] ends there: the version command is the
    only process it has started, so no configure step has run. *)
Theorem probe_failure_aborts (h : Host) (self : PSPBuild) (exe : string) (w : World) :
  which h "cmake" = Some exe ->
  (os_spawn h (spawned w) (probe_spawn h) = LaunchError ->
     fst (run_cmake h self w) = Raise (RuntimeError (cmake_missing self))
     /\ spawned (snd (run_cmake h self w)) = spawned w ++ [probe_spawn h])
  /\ (forall rc em,
     os_spawn h (spawned w) (probe_spawn h) = Exited rc em ->
     rc <> 0%Z ->
     fst (run_cmake h self w)
       = Raise (CalledProcessError rc (probe_cmd h) (Some (stdout_of em)))
     /\ spawned (snd (run_cmake h self w)) = spawned w ++ [probe_spawn h]).
Proof.
  intros Hwhich. split.
  - intros Hrun.
    rewrite (run_cmake_probe_raises h self w _ _ (probe_launch_error h self exe w Hwhich Hrun)).
    split; reflexivity.
  - intros rc em Hrun Hrc.
    rewrite (run_cmake_probe_raises h self w _ _ (probe_nonzero h self exe w Hwhich rc em Hrun Hrc)).
    split; reflexivity.
Qed.

Lemma probe_failure_aborts_witness :
  fst (run_cmake probe_cannot_start Demo.self Demo.fresh)
    = Raise (RuntimeError
               "CMake must be installed to build the following extensions: perspective")
  /\ spawned (snd (run_cmake probe_cannot_start Demo.self Demo.fresh))
     = spawned Demo.fresh ++ [probe_spawn probe_cannot_start].
Proof.
  apply (proj1 (probe_failure_aborts probe_cannot_start Demo.self "/usr/bin/cmake"
                  Demo.fresh eq_refl)).
  reflexivity.
Defined.

(** C2 (as stated) fails: when [cmake --version] exits with status 1 the
    error raised is the [CalledProcessError], not the [RuntimeError] that
    names CMake as required. *)
Lemma probe_nonzero_counterexample :
  os_spawn probe_exits_nonzero (spawned Demo.fresh) (probe_spawn probe_exits_nonzero)
    = Exited 1 [(Stderr, "cmake: cannot run")]
  /\ fst (run_cmake probe_exits_nonzero Demo.self Demo.fresh)
     = Raise (CalledProcessError 1 (mkCmd (Some "/usr/bin/cmake") ["--version"]) (Some ""))
  /\ fst (run_cmake probe_exits_nonzero Demo.self Demo.fresh)
     <> Raise (RuntimeError (cmake_missing Demo.self)).
Proof.
  split; [reflexivity|].
  assert (Hrun : fst (run_cmake probe_exits_nonzero Demo.self Demo.fresh)
                 = Raise (CalledProcessError 1 (mkCmd (Some "/usr/bin/cmake") ["--version"])
                            (Some ""))) by (vm_compute; reflexivity).
  split; [exact Hrun|]. rewrite Hrun. discriminate.
Qed.

(** C8 (as amended): the probe has no value for an unknown version.  On
    Windows, after a successful probe, a banner in which the pattern
    [version\s*([\d.]+)] matches nowhere makes the probe raise
    [AttributeError]; on every other platform the banner is not parsed and
    the probe returns normally. *)
Theorem unmatched_banner (h : Host) (self : PSPBuild) (exe : string) (w : World)
    (em : list (stream * string)) :
  which h "cmake" = Some exe ->
  os_spawn h (spawned w) (probe_spawn h) = Exited 0 em ->
  (is_windows h = true ->
     forall text,
       bytes_decode h (stdout_of em) = Some text ->
       Version.re_search text = None ->
       fst (version_probe h self w) = Raise AttributeError)
  /\ (is_windows h = false -> fst (version_probe h self w) = Ok tt).
Proof.
  intros Hwhich Hrun.
  rewrite (probe_zero h self exe w Hwhich em Hrun).
  split; intros ->; [|reflexivity].
  intros text -> ->. reflexivity.
Qed.

Lemma unmatched_banner_witness :
  fst (version_probe (windows_printing "cmake (no release information)")
         Demo.self Demo.fresh)
    = Raise AttributeError
  /\ fst (version_probe (Demo.linux ∅) Demo.self Demo.fresh) = Ok tt.
Proof.
  split.
  - apply (proj1 (unmatched_banner (windows_printing "cmake (no release information)")
                    Demo.self "/usr/bin/cmake" Demo.fresh
                    [(Stdout, "cmake (no release information)")] eq_refl eq_refl)
             eq_refl "cmake (no release information)"); reflexivity.
  - apply (proj2 (unmatched_banner (Demo.linux ∅) Demo.self "/usr/bin/cmake" Demo.fresh []
                    eq_refl eq_refl)).
    reflexivity.
Defined.

(** C8 (as stated) fails: on Windows a banner without a version makes the
    probe raise. *)
Lemma unmatched_banner_counterexample :
  Version.re_search "cmake (no release information)" = None
  /\ fst (version_probe (windows_printing "cmake (no release information)")
            Demo.self Demo.fresh)
     = Raise AttributeError.
Proof. split; vm_compute; reflexivity. Qed.

(** ** The artifact check *)

Section Contains.

Lemma prefix_app (p s : string) : String.prefix p (p +:+ s) = true.
Proof.
  induction p as [|c p IH]; simpl; [destruct s; reflexivity|].
  destruct (ascii_dec c c); [exact IH | contradiction].
Qed.

Lemma contains_here (p s : string) : PyStr.contains p (p +:+ s) = true.
Proof.
  pose proof (prefix_app p s) as Hp.
  destruct (p +:+ s); cbn [PyStr.contains]; rewrite Hp; reflexivity.
Qed.

Lemma contains_cons (p : string) c (s : string) :
  PyStr.contains p s = true -> PyStr.contains p (String c s) = true.
Proof. intros H. simpl. rewrite H. apply orb_true_r. Qed.

Lemma contains_app_r (p a s : string) :
  PyStr.contains p s = true -> PyStr.contains p (a +:+ s) = true.
Proof.
  intros H. induction a as [|c a IH]; [exact H|].
  change (String c a +:+ s) with (String c (a +:+ s)). apply contains_cons, IH.
Qed.

End Contains.

Section Preflight.

Variable h : Host.

Lemma probe_all_cons p ps w : probe_all ps (log_probe p w) = probe_all (p :: ps) w.
Proof. unfold probe_all, log_probe. simpl. rewrite <- app_assoc. reflexivity. Qed.

Lemma probe_all_nil w : probe_all [] w = w.
Proof. destruct w. unfold probe_all. simpl. rewrite app_nil_r. reflexivity. Qed.

Lemma check_present_reqs ph root files w :
  check_present h ph root files w
    = check_reqs
        (map (fun file => (os_path_abspath h (os_path_join h (here h) [root; file]), ph)) files)
        w.
Proof.
  revert w. induction files as [|file rest IH]; intros w; [reflexivity|].
  simpl. unfold bind, os_path_exists.
  destruct (negb _); [reflexivity | apply IH].
Qed.

Lemma check_reqs_all_present rs w :
  (forall q, In q (map fst rs) -> q ∈ fs w) ->
  check_reqs rs w = (Ok tt, probe_all (map fst rs) w).
Proof.
  revert w. induction rs as [|[p ph] rs IH]; intros w Hall.
  - simpl. rewrite probe_all_nil. reflexivity.
  - simpl. unfold bind, os_path_exists.
    rewrite bool_decide_eq_true_2 by (apply Hall; left; reflexivity). simpl.
    rewrite IH, probe_all_cons; [reflexivity|].
    intros q Hq. apply Hall. right. exact Hq.
Qed.

Lemma check_reqs_first_missing before path ph after w :
  (forall q, In q (map fst before) -> q ∈ fs w) ->
  path ∉ fs w ->
  check_reqs (before ++ (path, ph) :: after) w
    = (Raise (PyException (missing_message ph path)),
       probe_all (map fst before ++ [path]) w).
Proof.
  revert w. induction before as [|[p ph'] before IH]; intros w Hall Hmiss.
  - simpl. unfold bind, os_path_exists.
    rewrite bool_decide_eq_false_2 by exact Hmiss. reflexivity.
  - simpl. unfold bind, os_path_exists.
    rewrite bool_decide_eq_true_2 by (apply Hall; left; reflexivity). simpl.
    rewrite IH, probe_all_cons; [reflexivity | | exact Hmiss].
    intros q Hq. apply Hall. right. exact Hq.
Qed.

Lemma check_reqs_app a b w :
  check_reqs (a ++ b) w = (check_reqs a >> check_reqs b) w.
Proof.
  revert w. induction a as [|[p ph] a IH]; intros w; [reflexivity|].
  simpl. unfold bind, os_path_exists.
  destruct (bool_decide (p ∈ fs w)); simpl; [|reflexivity].
  rewrite IH. reflexivity.
Qed.

Lemma run_check_reqs w : run_check h w = check_reqs (requirements h) w.
Proof.
  unfold run_check, requirements. rewrite check_reqs_app.
  unfold bind. rewrite check_present_reqs.
  destruct (check_reqs _ w) as [[[]|e] w']; [apply check_present_reqs | reflexivity].
Qed.

Lemma message_names_path ph path : PyStr.contains path (missing_message ph path) = true.
Proof. unfold missing_message. apply contains_app_r, contains_here. Qed.

Lemma message_names_remedy ph path :
  PyStr.contains (remedy ph) (missing_message ph path) = true.
Proof.
  unfold missing_message.
  do 2 apply contains_app_r. apply contains_cons.
  apply (contains_app_r _ "Must run `"), contains_here.
Qed.

End Preflight.

(** In a list with a missing entry there is a first one. *)
Lemma first_missing_split (rs : list (string * phase)) (w : World) :
  Exists (fun r => fst r ∉ fs w) rs ->
  exists before path ph after,
    rs = before ++ (path, ph) :: after
    /\ (forall q, In q (map fst before) -> q ∈ fs w)
    /\ path ∉ fs w.
Proof.
  induction rs as [|[p ph] rs IH]; intros Hex; [inversion Hex|].
  destruct (decide (p ∈ fs w)) as [Hin | Hout].
  - destruct IH as (before & path & ph' & after & -> & Hall & Hmiss).
    { inversion Hex as [? ? Hhd | ? ? Htl]; [contradiction | exact Htl]. }
    exists ((p, ph) :: before), path, ph', after. split; [reflexivity|]. split; [|exact Hmiss].
    intros q [<- | Hq]; [exact Hin | apply Hall, Hq].
  - exists [], p, ph, rs. split; [reflexivity|]. split; [intros q []|exact Hout].
Qed.

(** C6: whatever is on disk, if at least one requirement of [run_check]
    is missing, then there is a first missing one in declaration order,
    [run_check] raises the exception whose message names that path and the
    command of its phase ([yarn build_python] for the three paths under
    [dist], [yarn build_js] for the two under [perspective]), and the
    paths it has looked for are those up to and including the missing one:
    no later requirement is looked at. *)
Theorem first_missing_artifact (h : Host) (w : World) :
  Exists (fun r => fst r ∉ fs w) (requirements h) ->
  exists before path ph after,
    requirements h = before ++ (path, ph) :: after
    /\ (forall q, In q (map fst before) -> q ∈ fs w)
    /\ (path ∉ fs w)
    /\ fst (run_check h w) = Raise (PyException (missing_message ph path))
    /\ probed (snd (run_check h w)) = probed w ++ map fst before ++ [path]
    /\ PyStr.contains path (missing_message ph path) = true
    /\ PyStr.contains
         (match ph with NativeBuild => "yarn build_python" | ScriptBuild => "yarn build_js" end)
         (missing_message ph path) = true
    /\ map snd (requirements h)
       = [NativeBuild; NativeBuild; NativeBuild; ScriptBuild; ScriptBuild].
Proof.
  intros Hex.
  destruct (first_missing_split (requirements h) w Hex)
    as (before & path & ph & after & Hreq & Hall & Hmiss).
  exists before, path, ph, after.
  assert (Hrun : run_check h w
                 = (Raise (PyException (missing_message ph path)),
                    probe_all (map fst before ++ [path]) w)).
  { rewrite run_check_reqs, Hreq. apply check_reqs_first_missing; assumption. }
  rewrite Hrun. repeat split; try assumption.
  - apply message_names_path.
  - pose proof (message_names_remedy ph path) as Hr. destruct ph; exact Hr.
Qed.

Lemma first_missing_artifact_witness :
  exists before path ph after,
    requirements (Demo.linux ∅) = before ++ (path, ph) :: after
    /\ (forall q, In q (map fst before) -> q ∈ fs half_built)
    /\ (path ∉ fs half_built)
    /\ fst (run_check (Demo.linux ∅) half_built)
       = Raise (PyException (missing_message ph path))
    /\ probed (snd (run_check (Demo.linux ∅) half_built))
       = probed half_built ++ map fst before ++ [path]
    /\ PyStr.contains path (missing_message ph path) = true
    /\ PyStr.contains
         (match ph with NativeBuild => "yarn build_python" | ScriptBuild => "yarn build_js" end)
         (missing_message ph path) = true
    /\ map snd (requirements (Demo.linux ∅))
       = [NativeBuild; NativeBuild; NativeBuild; ScriptBuild; ScriptBuild].
Proof.
  apply (first_missing_artifact (Demo.linux ∅) half_built).
  apply Exists_cons_tl, Exists_cons_hd.
  unfold half_built. simpl. intros Hin. apply elem_of_singleton_1 in Hin. discriminate.
Defined.

(** With [CMakeLists.txt] in place and [cmake] missing, the check stops at
    [cmake] after two look-ups. *)
Example run_check_half_built :
  fst (run_check (Demo.linux ∅) half_built)
    = Raise (PyException
               ("Path is missing! /repo/python/perspective/dist/cmake"
                  +:+ String PyStr.newline
                        "Must run `yarn build_python` before building sdist so cmake files are installed"))
  /\ probed (snd (run_check (Demo.linux ∅) half_built))
     = ["/repo/python/perspective/dist/CMakeLists.txt"; "/repo/python/perspective/dist/cmake"].
Proof. split; vm_compute; reflexivity. Qed.

(** With the native build in place and the script build missing, the
    message asks for the script build. *)
Example run_check_js_missing :
  fst (run_check (Demo.linux ∅)
         (mkWorld [] []
            {[ "/repo/python/perspective/dist/CMakeLists.txt";
               "/repo/python/perspective/dist/cmake";
               "/repo/python/perspective/dist/src" ]} []))
    = Raise (PyException
               ("Path is missing! /repo/python/perspective/perspective/labextension/package.json"
                  +:+ String PyStr.newline
                        "Must run `yarn build_js` before building sdist so extension js files are installed")).
Proof. vm_compute. reflexivity. Qed.

Example run_check_message :
  missing_message NativeBuild "/repo/python/perspective/dist/cmake"
    = "Path is missing! /repo/python/perspective/dist/cmake"
        +:+ String PyStr.newline
              "Must run `yarn build_python` before building sdist so cmake files are installed".
Proof. reflexivity. Qed.

(** ** More on [build_extension_cmake] *)

Section Footprint.

Variable h : Host.
Variable self : PSPBuild.

Lemma probed_prepared w : probed (prepared self w) = probed w ++ [build_temp self].
Proof. unfold prepared. destruct (bool_decide _); reflexivity. Qed.

Variable ext : PSPExtension.

(** The world a successful call leaves. *)
Lemma both_steps_world exe w em1 em2 :
  os_spawn h (spawned w) (configure_spawn h self ext (Some exe)) = Exited 0 em1 ->
  os_spawn h (spawned w ++ [configure_spawn h self ext (Some exe)])
    (build_spawn h self (Some exe)) = Exited 0 em2 ->
  build_extension_cmake h self ext (Some exe) w
    = (Ok tt,
       log_console [(Stdout, String PyStr.newline EmptyString)]
         (log_console (merge_streams em2)
            (log_spawn (build_spawn h self (Some exe))
               (log_console (merge_streams em1)
                  (log_spawn (configure_spawn h self ext (Some exe)) (prepared self w)))))).
Proof.
  intros Hconf Hbuild. rewrite build_extension_cmake_prepared.
  unfold bind at 1.
  rewrite (check_call_zero h _ _ _ exe (prepared self w) em1); try reflexivity.
  - unfold bind at 1.
    rewrite (check_call_zero h _ _ _ exe _ em2); try reflexivity.
    simpl. rewrite spawned_prepared. exact Hbuild.
  - rewrite spawned_prepared. exact Hconf.
Qed.

End Footprint.

(** X1: when the configure step and then the build step both exit with
    status 0, [build_extension_cmake] returns normally; it has started
    exactly these two processes, in this order, both in [build_temp]; the
    inherited standard output has received the merged output of the first,
    then of the second, then one empty line; and [build_temp] exists. *)
Theorem build_extension_cmake_returns (h : Host) (self : PSPBuild) (ext : PSPExtension)
    (exe : string) (w : World) (em1 em2 : list (stream * string)) :
  os_spawn h (spawned w) (configure_spawn h self ext (Some exe)) = Exited 0 em1 ->
  os_spawn h (spawned w ++ [configure_spawn h self ext (Some exe)])
    (build_spawn h self (Some exe)) = Exited 0 em2 ->
  fst (build_extension_cmake h self ext (Some exe) w) = Ok tt
  /\ spawned (snd (build_extension_cmake h self ext (Some exe) w))
     = spawned w ++ [configure_spawn h self ext (Some exe); build_spawn h self (Some exe)]
  /\ console (snd (build_extension_cmake h self ext (Some exe) w))
     = console w ++ merge_streams em1 ++ merge_streams em2
         ++ [(Stdout, String PyStr.newline EmptyString)]
  /\ build_temp self ∈ fs (snd (build_extension_cmake h self ext (Some exe) w))
  /\ sp_cwd (configure_spawn h self ext (Some exe)) = Some (build_temp self)
  /\ sp_cwd (build_spawn h self (Some exe)) = Some (build_temp self).
Proof.
  intros Hconf Hbuild.
  rewrite (both_steps_world h self ext exe w em1 em2 Hconf Hbuild). simpl.
  rewrite spawned_prepared, console_prepared, <- !app_assoc.
  repeat split. apply build_temp_prepared.
Qed.

Lemma build_extension_cmake_returns_witness :
  fst (build_extension_cmake (Demo.linux ∅) Demo.self Demo.ext (Some "/usr/bin/cmake")
         Demo.fresh) = Ok tt
  /\ spawned (snd (build_extension_cmake (Demo.linux ∅) Demo.self Demo.ext
                     (Some "/usr/bin/cmake") Demo.fresh))
     = spawned Demo.fresh
         ++ [configure_spawn (Demo.linux ∅) Demo.self Demo.ext (Some "/usr/bin/cmake");
             build_spawn (Demo.linux ∅) Demo.self (Some "/usr/bin/cmake")].
Proof.
  pose proof (build_extension_cmake_returns (Demo.linux ∅) Demo.self Demo.ext
                "/usr/bin/cmake" Demo.fresh [] [] eq_refl eq_refl) as H.
  split; [exact (proj1 H) | exact (proj1 (proj2 H))].
Defined.

(** The processes a call has started, by its outcome. *)
Lemma build_extension_cmake_started (h : Host) (self : PSPBuild) (ext : PSPExtension)
    (cmd : option string) (w : World) :
  (fst (build_extension_cmake h self ext cmd w) = Ok tt
   /\ spawned (snd (build_extension_cmake h self ext cmd w))
      = spawned w ++ [configure_spawn h self ext cmd; build_spawn h self cmd])
  \/ ((exists e, fst (build_extension_cmake h self ext cmd w) = Raise e)
      /\ (spawned (snd (build_extension_cmake h self ext cmd w)) = spawned w
          \/ spawned (snd (build_extension_cmake h self ext cmd w))
             = spawned w ++ [configure_spawn h self ext cmd]
          \/ spawned (snd (build_extension_cmake h self ext cmd w))
             = spawned w ++ [configure_spawn h self ext cmd; build_spawn h self cmd])).
Proof.
  rewrite build_extension_cmake_prepared.
  unfold bind, check_call, bind, popen_wait, print_empty, raise, ret. simpl.
  destruct cmd as [exe|]; simpl.
  - fold (configure_spawn h self ext (Some exe)). fold (build_spawn h self (Some exe)).
    destruct (os_spawn h (spawned (prepared self w)) (configure_spawn h self ext (Some exe)))
      as [|rc1 em1]; simpl.
    + rewrite spawned_prepared. right. eauto.
    + destruct (rc1 =? 0)%Z; simpl.
      * destruct (os_spawn h _ (build_spawn h self (Some exe))) as [|rc2 em2]; simpl;
          [|destruct (rc2 =? 0)%Z; simpl];
          rewrite spawned_prepared, <- app_assoc; [right | left | right]; eauto.
      * rewrite spawned_prepared. right. eauto.
  - rewrite spawned_prepared. right. eauto.
Qed.

(** X2: whatever the tool does and whether or not [which] found it, a
    call of [build_extension_cmake] asks [os.path.exists] about
    [build_temp] and about nothing else; the processes it has started are
    none, the configure step alone, or the configure step followed by the
    build step, never one of them twice and never the build step without
    the configure step; and a call that returns normally has started
    both. *)
Theorem build_extension_cmake_footprint (h : Host) (self : PSPBuild) (ext : PSPExtension)
    (cmd : option string) (w : World) :
  probed (snd (build_extension_cmake h self ext cmd w)) = probed w ++ [build_temp self]
  /\ (exists started,
        spawned (snd (build_extension_cmake h self ext cmd w)) = spawned w ++ started
        /\ (started = []
            \/ started = [configure_spawn h self ext cmd]
            \/ started = [configure_spawn h self ext cmd; build_spawn h self cmd]))
  /\ (fst (build_extension_cmake h self ext cmd w) = Ok tt ->
      spawned (snd (build_extension_cmake h self ext cmd w))
      = spawned w ++ [configure_spawn h self ext cmd; build_spawn h self cmd]).
Proof.
  split; [|split].
  - rewrite build_extension_cmake_prepared.
    unfold bind, check_call, bind, popen_wait, print_empty, raise, ret. simpl.
    destruct cmd as [exe|]; simpl; [|apply probed_prepared].
    destruct (os_spawn h (spawned (prepared self w)) _) as [|rc1 em1]; simpl;
      [apply probed_prepared|].
    destruct (rc1 =? 0)%Z; simpl; [|apply probed_prepared].
    destruct (os_spawn h _ _) as [|rc2 em2]; simpl; [apply probed_prepared|].
    destruct (rc2 =? 0)%Z; simpl; apply probed_prepared.
  - destruct (build_extension_cmake_started h self ext cmd w)
      as [[_ Hs] | [_ [Hs | [Hs | Hs]]]].
    + eexists. split; [exact Hs | auto].
    + exists []. rewrite app_nil_r. auto.
    + eexists. split; [exact Hs | auto].
    + eexists. split; [exact Hs | auto].
  - intros Hok.
    destruct (build_extension_cmake_started h self ext cmd w) as [[_ Hs] | [[e He] _]];
      [exact Hs | rewrite He in Hok; discriminate Hok].
Qed.

Lemma build_extension_cmake_footprint_witness :
  spawned (snd (build_extension_cmake (Demo.linux ∅) Demo.self Demo.ext
                  (Some "/usr/bin/cmake") Demo.fresh))
    = spawned Demo.fresh
        ++ [configure_spawn (Demo.linux ∅) Demo.self Demo.ext (Some "/usr/bin/cmake");
            build_spawn (Demo.linux ∅) Demo.self (Some "/usr/bin/cmake")].
Proof.
  apply (proj2 (proj2 (build_extension_cmake_footprint (Demo.linux ∅) Demo.self Demo.ext
                         (Some "/usr/bin/cmake") Demo.fresh))).
  vm_compute. reflexivity.
Defined.

(** X3: an exception that leaves [build_extension_cmake] is [TypeError]
    (and then [which] had found nothing), [OSError], or the
    [CalledProcessError] of the configure or the build step, with a
    nonzero status and no captured output. *)
Theorem build_extension_cmake_errors (h : Host) (self : PSPBuild) (ext : PSPExtension)
    (cmd : option string) (w : World) (e : exn) :
  fst (build_extension_cmake h self ext cmd w) = Raise e ->
  (e = TypeError /\ cmd = None)
  \/ e = OSError
  \/ exists rc c,
       rc <> 0%Z
       /\ (c = configure_cmd h self ext cmd \/ c = build_cmd h self cmd)
       /\ e = CalledProcessError rc c None.
Proof.
  rewrite build_extension_cmake_prepared.
  unfold bind, check_call, bind, popen_wait, print_empty, raise, ret. simpl.
  destruct cmd as [exe|]; simpl.
  - destruct (os_spawn h (spawned (prepared self w)) _) as [|rc1 em1]; simpl.
    + intros [= <-]. auto.
    + destruct (Z.eqb_spec rc1 0) as [-> | Hrc1]; simpl.
      * destruct (os_spawn h _ _) as [|rc2 em2]; simpl.
        -- intros [= <-]. auto.
        -- destruct (Z.eqb_spec rc2 0) as [-> | Hrc2]; simpl; [discriminate|].
           intros [= <-]. right. right. exists rc2, (build_cmd h self (Some exe)). auto.
      * intros [= <-]. right. right. exists rc1, (configure_cmd h self ext (Some exe)). auto.
  - intros [= <-]. auto.
Qed.

Lemma build_extension_cmake_errors_witness :
  (CalledProcessError 1
     (configure_cmd failing_configure Demo.self Demo.ext (Some "/usr/bin/cmake")) None
     = TypeError /\ Some "/usr/bin/cmake" = None)
  \/ CalledProcessError 1
       (configure_cmd failing_configure Demo.self Demo.ext (Some "/usr/bin/cmake")) None
     = OSError
  \/ exists rc c,
       rc <> 0%Z
       /\ (c = configure_cmd failing_configure Demo.self Demo.ext (Some "/usr/bin/cmake")
           \/ c = build_cmd failing_configure Demo.self (Some "/usr/bin/cmake"))
       /\ CalledProcessError 1
            (configure_cmd failing_configure Demo.self Demo.ext (Some "/usr/bin/cmake")) None
          = CalledProcessError rc c None.
Proof.
  apply (build_extension_cmake_errors failing_configure Demo.self Demo.ext
           (Some "/usr/bin/cmake") Demo.fresh).
  vm_compute. reflexivity.
Defined.

(** ** More on [run_cmake] *)

Section WholeRun.

Variable h : Host.
Variable self : PSPBuild.
Variable exe : string.

Abbreviation body := (fun x => build_extension_cmake h self x (Some exe)).

Lemma for_each_app {A} (xs ys : list A) (f : A -> M unit) w :
  for_each (xs ++ ys) f w = (for_each xs f >> for_each ys f) w.
Proof.
  revert w. induction xs as [|x xs IH]; intros w; [reflexivity|].
  simpl. unfold bind.
  destruct (f x w) as [[[]|e] w1]; [|reflexivity].
  rewrite IH. reflexivity.
Qed.

(** The processes the loop has started, by its outcome: all of them when
    it returns, an initial part of them when it raises. *)
Lemma for_each_started (exts : list PSPExtension) w :
  (fst (for_each exts body w) = Ok tt
   /\ spawned (snd (for_each exts body w)) = spawned w ++ build_spawns h self exe exts)
  \/ ((exists e, fst (for_each exts body w) = Raise e)
      /\ exists started,
           spawned (snd (for_each exts body w)) = spawned w ++ started
           /\ started `prefix_of` build_spawns h self exe exts).
Proof.
  revert w. induction exts as [|ext exts IH]; intros w.
  - left. simpl. unfold build_spawns. simpl. rewrite app_nil_r. auto.
  - change (build_spawns h self exe (ext :: exts))
      with ([configure_spawn h self ext (Some exe); build_spawn h self (Some exe)]
              ++ build_spawns h self exe exts).
    pose proof (build_extension_cmake_started h self ext (Some exe) w) as Hstep.
    simpl. unfold bind.
    destruct (build_extension_cmake h self ext (Some exe) w) as [[[]|e] w1] eqn:Hrun;
      simpl in Hstep.
    + destruct Hstep as [[_ Hs] | [[e He] _]]; [|discriminate He].
      destruct (IH w1) as [[Hok Hsp] | [Hraise (started & Hsp & Hpre)]].
      * left. split; [exact Hok|]. rewrite Hsp, Hs, <- app_assoc. reflexivity.
      * right. split; [exact Hraise|].
        exists ([configure_spawn h self ext (Some exe); build_spawn h self (Some exe)]
                  ++ started).
        split; [rewrite Hsp, Hs, <- app_assoc; reflexivity|].
        destruct Hpre as [k ->]. exists k. rewrite <- app_assoc. reflexivity.
    + right. split; [eauto|].
      destruct Hstep as [[Habs _] | [_ [Hs | [Hs | Hs]]]]; [discriminate Habs | ..].
      * exists []. simpl. rewrite app_nil_r. split; [exact Hs | apply prefix_nil].
      * exists [configure_spawn h self ext (Some exe)]. split; [exact Hs|].
        exists (build_spawn h self (Some exe) :: build_spawns h self exe exts). reflexivity.
      * exists [configure_spawn h self ext (Some exe); build_spawn h self (Some exe)].
        split; [exact Hs|]. exists (build_spawns h self exe exts). reflexivity.
Qed.

(** The probe has tried to start the version command, whatever came of
    it. *)
Lemma version_probe_started w :
  which h "cmake" = Some exe ->
  spawned (snd (version_probe h self w)) = spawned w ++ [probe_spawn h].
Proof.
  intros Hwhich.
  unfold version_probe, bind, except_OSError, check_output, bind, popen_wait, raise, ret.
  simpl. rewrite Hwhich. simpl. fold (probe_cmd h). fold (probe_spawn h).
  destruct (os_spawn h (spawned w) (probe_spawn h)) as [|rc em]; simpl; [reflexivity|].
  destruct (rc =? 0)%Z; simpl; [|reflexivity].
  destruct (is_windows h); simpl; [|reflexivity].
  destruct (bytes_decode h (stdout_of em)) as [text|]; simpl; [|reflexivity].
  destruct (Version.re_search text) as [g|]; simpl; [|reflexivity].
  destruct (Version.lt_str _ _); reflexivity.
Qed.

Lemma length_build_spawns (exts : list PSPExtension) :
  length (build_spawns h self exe exts) = 2 * length exts.
Proof.
  unfold build_spawns. induction exts as [|ext exts IH]; [reflexivity|].
  simpl in *. rewrite IH. lia.
Qed.

(** After a probe that ran and exited with status 0 the world is the same
    whatever the version test then says. *)
Lemma version_probe_world w em :
  which h "cmake" = Some exe ->
  os_spawn h (spawned w) (probe_spawn h) = Exited 0 em ->
  snd (version_probe h self w)
    = log_console (to_console (probe_spawn h) em) (log_spawn (probe_spawn h) w).
Proof.
  intros Hwhich Hrun.
  unfold version_probe, bind, except_OSError, check_output, bind.
  pose proof (popen_wait_exited h (probe_spawn h) exe w 0 em Hwhich Hrun) as Hp.
  unfold probe_spawn in Hp. rewrite Hp. simpl.
  destruct (is_windows h); [|reflexivity].
  destruct (bytes_decode h (stdout_of em)) as [text|]; [|reflexivity].
  destruct (Version.re_search text) as [g|]; [|reflexivity].
  destruct (Version.lt_str _ _); reflexivity.
Qed.

End WholeRun.

(** X4: the processes of a run follow one plan: the version command,
    then for each extension, in the order of [self.extensions], its
    configure step followed by its build step.  Whatever the tool does,
    the processes [run_cmake] has started are an initial part of that
    plan, none out of order, none twice and none skipped; and a run that
    returns normally has started all of them, one process plus two per
    extension. *)
Theorem run_cmake_process_plan (h : Host) (self : PSPBuild) (exe : string) (w : World) :
  which h "cmake" = Some exe ->
  (exists started,
     spawned (snd (run_cmake h self w)) = spawned w ++ started
     /\ started `prefix_of` (probe_spawn h :: build_spawns h self exe (extensions self)))
  /\ (fst (run_cmake h self w) = Ok tt ->
      spawned (snd (run_cmake h self w))
        = spawned w ++ probe_spawn h :: build_spawns h self exe (extensions self)
      /\ length (spawned (snd (run_cmake h self w)))
         = length (spawned w) + 1 + 2 * length (extensions self)).
Proof.
  intros Hwhich.
  pose proof (version_probe_started h self exe w Hwhich) as Hprobe.
  unfold run_cmake, bind. rewrite Hwhich.
  destruct (version_probe h self w) as [[[]|e] w0] eqn:Hvp; simpl in Hprobe.
  - destruct (for_each_started h self exe (extensions self) w0)
      as [[Hok Hsp] | [[e He] (started & Hsp & Hpre)]].
    + assert (Hall : spawned (snd (for_each (extensions self)
                                     (fun x => build_extension_cmake h self x (Some exe)) w0))
                     = spawned w ++ probe_spawn h
                         :: build_spawns h self exe (extensions self)).
      { rewrite Hsp, Hprobe, <- app_assoc. reflexivity. }
      split.
      * eexists. split; [exact Hall | reflexivity].
      * intros _. split; [exact Hall|].
        rewrite Hall, length_app. simpl. rewrite length_build_spawns. lia.
    + split.
      * exists (probe_spawn h :: started).
        split; [rewrite Hsp, Hprobe, <- app_assoc; reflexivity|].
        destruct Hpre as [k ->]. exists k. reflexivity.
      * intros Hok. rewrite He in Hok. discriminate Hok.
  - split.
    + exists [probe_spawn h]. split; [exact Hprobe|].
      exists (build_spawns h self exe (extensions self)). reflexivity.
    + intros Hok. discriminate Hok.
Qed.

Lemma run_cmake_process_plan_witness :
  spawned (snd (run_cmake (Demo.linux ∅) self_three Demo.fresh))
    = spawned Demo.fresh
        ++ probe_spawn (Demo.linux ∅)
           :: build_spawns (Demo.linux ∅) self_three "/usr/bin/cmake" (extensions self_three)
  /\ length (spawned (snd (run_cmake (Demo.linux ∅) self_three Demo.fresh)))
     = length (spawned Demo.fresh) + 1 + 2 * length (extensions self_three).
Proof.
  apply (proj2 (run_cmake_process_plan (Demo.linux ∅) self_three "/usr/bin/cmake" Demo.fresh
                  eq_refl)).
  vm_compute. reflexivity.
Defined.

(** X5: [run_cmake] stops at the first extension whose build raises: when
    the probe is accepted, the extensions before [ext] build without
    error and the build of [ext] raises [e], [run_cmake] raises [e] and
    leaves the world as that build left it, so that no extension after
    [ext] is configured or built. *)
Theorem run_cmake_stops_at_first_failure (h : Host) (self : PSPBuild)
    (w w0 w1 w2 : World) (done rest : list PSPExtension) (ext : PSPExtension) (e : exn) :
  version_probe h self w = (Ok tt, w0) ->
  extensions self = done ++ ext :: rest ->
  for_each done (fun x => build_extension_cmake h self x (which h "cmake")) w0 = (Ok tt, w1) ->
  build_extension_cmake h self ext (which h "cmake") w1 = (Raise e, w2) ->
  run_cmake h self w = (Raise e, w2).
Proof.
  intros Hprobe Hexts Hdone Hfail.
  unfold run_cmake, bind. rewrite Hprobe, Hexts, for_each_app.
  unfold bind. rewrite Hdone. simpl. unfold bind. rewrite Hfail. reflexivity.
Qed.

Lemma run_cmake_stops_at_first_failure_witness :
  fst (run_cmake second_configure_fails self_three Demo.fresh)
    = Raise (CalledProcessError 3
               (configure_cmd second_configure_fails self_three ext_extra (Some "/usr/bin/cmake"))
               None)
  /\ length (spawned (snd (run_cmake second_configure_fails self_three Demo.fresh))) = 4%nat.
Proof.
  pose proof (run_cmake_stops_at_first_failure second_configure_fails self_three
                Demo.fresh
                (snd (version_probe second_configure_fails self_three Demo.fresh))
                (snd (build_extension_cmake second_configure_fails self_three Demo.ext
                        (Some "/usr/bin/cmake")
                        (snd (version_probe second_configure_fails self_three Demo.fresh))))
                (snd (build_extension_cmake second_configure_fails self_three ext_extra
                        (Some "/usr/bin/cmake")
                        (snd (build_extension_cmake second_configure_fails self_three Demo.ext
                                (Some "/usr/bin/cmake")
                                (snd (version_probe second_configure_fails self_three
                                        Demo.fresh))))))
                [Demo.ext] [ext_third] ext_extra
                (CalledProcessError 3
                   (configure_cmd second_configure_fails self_three ext_extra
                      (Some "/usr/bin/cmake"))
                   None)) as H.
  rewrite H; [split; vm_compute; reflexivity | | | |]; vm_compute; reflexivity.
Defined.

(** X6: when [which] finds no [cmake] and returns [None], [run_cmake]
    raises [TypeError] before any process is started and leaves the world
    untouched; the handler that turns a missing tool into the error
    naming CMake is not reached. *)
Theorem run_cmake_without_executable (h : Host) (self : PSPBuild) (w : World) :
  which h "cmake" = None ->
  run_cmake h self w = (Raise TypeError, w)
  /\ fst (run_cmake h self w) <> Raise (RuntimeError (cmake_missing self)).
Proof.
  intros Hnone.
  rewrite (run_cmake_probe_raises h self w _ _ (probe_without_executable h self w Hnone)).
  split; [reflexivity | discriminate].
Qed.

Lemma run_cmake_without_executable_witness :
  run_cmake (with_which (fun _ => None) (Demo.linux ∅)) Demo.self Demo.fresh
    = (Raise TypeError, Demo.fresh)
  /\ fst (run_cmake (with_which (fun _ => None) (Demo.linux ∅)) Demo.self Demo.fresh)
     <> Raise (RuntimeError (cmake_missing Demo.self)).
Proof.
  apply (run_cmake_without_executable (with_which (fun _ => None) (Demo.linux ∅))).
  reflexivity.
Defined.

(** X7: when neither [shutil.which] nor its backport can be imported,
    [which] returns the name it is given: the probe runs [cmake] by name,
    it never fails with [TypeError], and a [cmake] that cannot be started
    gives the error naming CMake as required. *)
Theorem fallback_which_probe (h : Host) (self : PSPBuild) (w : World) :
  which h = Setup.bind_which None None ->
  probe_cmd h = mkCmd (Some "cmake") ["--version"]
  /\ fst (version_probe h self w) <> Raise TypeError
  /\ (os_spawn h (spawned w) (probe_spawn h) = LaunchError ->
      fst (run_cmake h self w) = Raise (RuntimeError (cmake_missing self))).
Proof.
  intros Hbind.
  assert (Hwhich : which h "cmake" = Some "cmake") by (rewrite Hbind; reflexivity).
  split; [unfold probe_cmd; rewrite Hwhich; reflexivity|]. split.
  - destruct (os_spawn h (spawned w) (probe_spawn h)) as [|rc em] eqn:Hrun.
    + rewrite (probe_launch_error h self "cmake" w Hwhich Hrun). discriminate.
    + destruct (Z.eq_dec rc 0%Z) as [-> | Hrc].
      * rewrite (probe_zero h self "cmake" w Hwhich em Hrun).
        destruct (is_windows h); [|discriminate].
        destruct (bytes_decode h (stdout_of em)) as [text|]; [|discriminate].
        destruct (Version.re_search text) as [g|]; [|discriminate].
        destruct (Version.list_lt _ _); discriminate.
      * rewrite (probe_nonzero h self "cmake" w Hwhich rc em Hrun Hrc). discriminate.
  - intros Hrun.
    rewrite (run_cmake_probe_raises h self w _ _
               (probe_launch_error h self "cmake" w Hwhich Hrun)).
    reflexivity.
Qed.

Lemma fallback_which_probe_witness :
  probe_cmd (with_which (Setup.bind_which None None) probe_cannot_start)
    = mkCmd (Some "cmake") ["--version"]
  /\ fst (version_probe (with_which (Setup.bind_which None None) probe_cannot_start)
            Demo.self Demo.fresh) <> Raise TypeError
  /\ (os_spawn (with_which (Setup.bind_which None None) probe_cannot_start)
        (spawned Demo.fresh)
        (probe_spawn (with_which (Setup.bind_which None None) probe_cannot_start))
      = LaunchError ->
      fst (run_cmake (with_which (Setup.bind_which None None) probe_cannot_start)
             Demo.self Demo.fresh)
      = Raise (RuntimeError (cmake_missing Demo.self))).
Proof.
  apply (fallback_which_probe (with_which (Setup.bind_which None None) probe_cannot_start)).
  reflexivity.
Defined.

(** ** More on the version pattern and the version test *)

Section Pattern.

Abbreviation version_char := (fun c => Version.is_digit c || Version.is_dot c).

Lemma take_while_all p s : all_chars p (Version.take_while p s) = true.
Proof.
  induction s as [|c s IH]; simpl; [reflexivity|].
  destruct (p c) eqn:E; simpl; [rewrite E; exact IH | reflexivity].
Qed.

Lemma take_drop_while p s : s = Version.take_while p s +:+ Version.drop_while p s.
Proof.
  induction s as [|c s IH]; simpl; [reflexivity|].
  destruct (p c); [|reflexivity].
  change (String c s = String c (Version.take_while p s +:+ Version.drop_while p s)).
  f_equal. exact IH.
Qed.

Lemma stops_drop_while p s : stops p (Version.drop_while p s) = true.
Proof.
  induction s as [|c s IH]; simpl; [reflexivity|].
  destruct (p c) eqn:E; [exact IH | simpl; rewrite E; reflexivity].
Qed.

Lemma strip_prefix_app pre s r : Version.strip_prefix pre s = Some r -> s = pre +:+ r.
Proof.
  revert s. induction pre as [|a pre IH]; intros s; simpl.
  - intros [= ->]. reflexivity.
  - destruct s as [|b s]; [discriminate|].
    destruct (Ascii.eqb_spec a b) as [-> | _]; [|discriminate].
    intros H. change (String b s = String b (pre +:+ r)). f_equal. apply IH, H.
Qed.

Lemma take_while_app p s rest :
  all_chars p s = true -> stops p rest = true ->
  Version.take_while p (s +:+ rest) = s.
Proof.
  intros Hall Hstop. induction s as [|c s IH]; simpl in *.
  - destruct rest as [|c r]; simpl in *; [reflexivity|].
    destruct (p c); [discriminate | reflexivity].
  - apply andb_true_iff in Hall as [Hc Hs].
    change (Version.take_while p (String c (s +:+ rest)) = String c s).
    simpl. rewrite Hc. f_equal. apply IH, Hs.
Qed.

(** What a match at the start of [s] looks like. *)
Lemma match_at_sound s g :
  Version.match_at s = Some g ->
  g <> EmptyString
  /\ all_chars version_char g = true
  /\ exists spaces after,
       s = "version" +:+ spaces +:+ g +:+ after
       /\ all_chars Version.is_space spaces = true
       /\ stops version_char after = true.
Proof.
  unfold Version.match_at.
  destruct (Version.strip_prefix "version" s) as [r|] eqn:Hr; [|discriminate].
  apply strip_prefix_app in Hr.
  pose proof (take_drop_while Version.is_space r) as Hsp.
  pose proof (take_drop_while version_char (Version.drop_while Version.is_space r)) as Hg.
  pose proof (take_while_all version_char (Version.drop_while Version.is_space r)) as Hall.
  destruct (Version.take_while version_char (Version.drop_while Version.is_space r))
    as [|c g'] eqn:Htake; [discriminate|].
  intros [= <-]. split; [discriminate|]. split; [exact Hall|].
  exists (Version.take_while Version.is_space r),
    (Version.drop_while version_char (Version.drop_while Version.is_space r)).
  split; [|split].
  - rewrite Hr at 1. f_equal. rewrite Hsp at 1. f_equal. exact Hg.
  - apply take_while_all.
  - apply stops_drop_while.
Qed.

End Pattern.

(** X8: whenever the pattern matches in a banner, the group handed to
    [LooseVersion] is a non-empty string of digits and dots, and the
    banner reads: some text, the word [version], white space (possibly
    none), the group, and a rest that does not go on with a digit or a
    dot. *)
Theorem re_search_sound (s g : string) :
  Version.re_search s = Some g ->
  g <> EmptyString
  /\ all_chars (fun c => Version.is_digit c || Version.is_dot c) g = true
  /\ exists before spaces after,
       s = before +:+ "version" +:+ spaces +:+ g +:+ after
       /\ all_chars Version.is_space spaces = true
       /\ stops (fun c => Version.is_digit c || Version.is_dot c) after = true.
Proof.
  induction s as [|c s IH].
  - intros H. cbv in H. discriminate H.
  - cbn [Version.re_search]. destruct (Version.match_at (String c s)) as [g0|] eqn:Hm.
    + intros [= ->].
      destruct (match_at_sound _ g Hm) as (Hne & Hall & sp & af & Hs & Hsp & Haf).
      repeat split; try assumption. exists "", sp, af. auto.
    + intros Hrec. destruct (IH Hrec) as (Hne & Hall & bf & sp & af & Hs & Hsp & Haf).
      repeat split; try assumption. exists (String c bf), sp, af.
      split; [|auto].
      change (String c s = String c (bf +:+ "version" +:+ sp +:+ g +:+ af)).
      f_equal. exact Hs.
Qed.

Lemma re_search_sound_witness :
  "3.16.3" <> EmptyString
  /\ all_chars (fun c => Version.is_digit c || Version.is_dot c) "3.16.3" = true
  /\ exists before spaces after,
       "cmake version 3.16.3-rc1" = before +:+ "version" +:+ spaces +:+ "3.16.3" +:+ after
       /\ all_chars Version.is_space spaces = true
       /\ stops (fun c => Version.is_digit c || Version.is_dot c) after = true.
Proof. apply (re_search_sound "cmake version 3.16.3-rc1" "3.16.3"). reflexivity. Defined.

Section Decimal.

Lemma append_nil_r (s : string) : s +:+ "" = s.
Proof.
  induction s as [|c s IH]; [reflexivity|].
  change (String c (s +:+ "") = String c s). f_equal. exact IH.
Qed.

Lemma uint_digits d : all_chars Version.is_digit (NilEmpty.string_of_uint d) = true.
Proof. induction d; simpl; auto. Qed.

(** Reading on through the digits of [d] after the value [acc]. *)
Lemma components_uint d acc rest :
  Version.components (Some acc) (NilEmpty.string_of_uint d +:+ rest)
    = Version.components (Some (Nat.of_uint_acc d acc)) rest.
Proof.
  revert acc. induction d; intros acc;
    [reflexivity | ..];
    cbn [NilEmpty.string_of_uint Nat.of_uint_acc];
    match goal with
    | |- Version.components _ (String ?c ?s +:+ rest) = _ =>
        change (String c s +:+ rest) with (String c (s +:+ rest))
    end;
    cbn [Version.components];
    match goal with
    | |- (if ?b then _ else _) = _ => change b with true
    end;
    cbv iota; rewrite <- IHd; do 2 f_equal;
    rewrite Nat.tail_mul_spec; cbn [default]; simpl Nat.sub; unfold id; lia.
Qed.

Lemma to_uint_not_nil n : Nat.to_uint n <> Decimal.Nil.
Proof.
  intros Hnil. pose proof (DecimalNat.Unsigned.of_to n) as Hof.
  rewrite Hnil in Hof. cbn in Hof. subst n. discriminate Hnil.
Qed.

(** [LooseVersion] reads the decimal text of [n] as [n]. *)
Lemma components_of_nat n rest :
  Version.components None (PyStr.of_nat n +:+ rest) = Version.components (Some n) rest.
Proof.
  unfold PyStr.of_nat.
  pose proof (DecimalNat.Unsigned.of_to n) as Hof.
  pose proof (to_uint_not_nil n) as Hnn.
  unfold Nat.of_uint in Hof.
  destruct (Nat.to_uint n) as [|d|d|d|d|d|d|d|d|d|d]; [contradiction | ..];
    cbn [NilEmpty.string_of_uint Nat.of_uint_acc] in *;
    match goal with
    | |- Version.components _ (String ?c ?s +:+ rest) = _ =>
        change (String c s +:+ rest) with (String c (s +:+ rest))
    end;
    cbn [Version.components];
    match goal with
    | |- (if ?b then _ else _) = _ => change b with true
    end;
    cbv iota; rewrite components_uint; do 2 f_equal;
    rewrite <- Hof; f_equal.
Qed.

Lemma of_nat_digits n : all_chars Version.is_digit (PyStr.of_nat n) = true.
Proof. apply uint_digits. Qed.

Lemma of_nat_head n : exists c r, PyStr.of_nat n = String c r /\ Version.is_digit c = true.
Proof.
  pose proof (of_nat_digits n) as Hd. pose proof (to_uint_not_nil n) as Hnn.
  unfold PyStr.of_nat in *.
  destruct (Nat.to_uint n); [contradiction | ..]; simpl in *; eauto.
Qed.

Lemma all_chars_app p a b :
  all_chars p (a +:+ b) = all_chars p a && all_chars p b.
Proof.
  induction a as [|c a IH]; [reflexivity|].
  change (all_chars p (String c (a +:+ b)) = all_chars p (String c a) && all_chars p b).
  simpl. rewrite IH. apply andb_assoc.
Qed.

Lemma all_chars_weaken (p q : ascii -> bool) s :
  (forall c, p c = true -> q c = true) -> all_chars p s = true -> all_chars q s = true.
Proof.
  intros Hpq. induction s as [|c s IH]; simpl; [reflexivity|].
  intros H. apply andb_true_iff in H as [Hc Hs]. rewrite (Hpq c Hc). apply IH, Hs.
Qed.

Lemma LooseVersion_dotted a b c : Version.LooseVersion (dotted a b c) = [a; b; c].
Proof.
  unfold Version.LooseVersion, dotted.
  rewrite components_of_nat.
  change ("." +:+ PyStr.of_nat b +:+ "." +:+ PyStr.of_nat c)
    with (String "." (PyStr.of_nat b +:+ "." +:+ PyStr.of_nat c)).
  cbn [Version.components]. change (Version.is_digit ".") with false. cbv iota.
  rewrite components_of_nat.
  change ("." +:+ PyStr.of_nat c) with (String "." (PyStr.of_nat c)).
  cbn [Version.components]. change (Version.is_digit ".") with false. cbv iota.
  rewrite <- (append_nil_r (PyStr.of_nat c)), components_of_nat. reflexivity.
Qed.

Lemma dotted_chars a b c :
  all_chars (fun c => Version.is_digit c || Version.is_dot c) (dotted a b c) = true.
Proof.
  assert (Hn : forall n,
             all_chars (fun c => Version.is_digit c || Version.is_dot c) (PyStr.of_nat n) = true).
  { intros n. apply (all_chars_weaken Version.is_digit); [|apply of_nat_digits].
    intros ch ->. reflexivity. }
  unfold dotted. rewrite !all_chars_app, !Hn. reflexivity.
Qed.

Lemma dotted_head a b c :
  exists ch r, dotted a b c = String ch r /\ Version.is_digit ch = true.
Proof.
  destruct (of_nat_head a) as (ch & r & Heq & Hd).
  exists ch, (r +:+ "." +:+ PyStr.of_nat b +:+ "." +:+ PyStr.of_nat c).
  split; [|exact Hd]. unfold dotted. rewrite Heq. reflexivity.
Qed.

End Decimal.

(** The pattern finds the version of a banner of CMake. *)
Lemma banner_search (a b c : nat) (rest : string) :
  stops (fun ch => Version.is_digit ch || Version.is_dot ch) rest = true ->
  Version.re_search ("cmake version " +:+ dotted a b c +:+ rest) = Some (dotted a b c).
Proof.
  intros Hstop.
  destruct (dotted_head a b c) as (ch & r & Heq & Hd).
  assert (Hsp : Version.is_space ch = false).
  { unfold Version.is_digit, Version.is_space in *.
    apply andb_true_iff in Hd as [H1 H2].
    apply Nat.leb_le in H1, H2.
    apply orb_false_iff. split; apply andb_false_iff.
    - right. apply Nat.leb_gt. lia.
    - right. apply Nat.leb_gt. lia. }
  assert (Hat : Version.match_at ("version " +:+ dotted a b c +:+ rest) = Some (dotted a b c)).
  { unfold Version.match_at.
    change (Version.strip_prefix "version" ("version " +:+ dotted a b c +:+ rest))
      with (Some (String " " (dotted a b c +:+ rest))).
    cbn [Version.drop_while]. change (Version.is_space " ") with true. cbv iota.
    assert (Hdrop : Version.drop_while Version.is_space (dotted a b c +:+ rest)
                    = dotted a b c +:+ rest).
    { rewrite Heq. change (String ch r +:+ rest) with (String ch (r +:+ rest)).
      simpl. rewrite Hsp. reflexivity. }
    rewrite Hdrop, (take_while_app _ _ _ (dotted_chars a b c) Hstop).
    rewrite Heq. reflexivity. }
  change ("cmake version " +:+ dotted a b c +:+ rest)
    with (String "c" (String "m" (String "a" (String "k" (String "e" (String " "
            ("version " +:+ dotted a b c +:+ rest))))))).
  do 6 (cbn [Version.re_search];
        match goal with
        | |- match Version.match_at (String ?x ?s) with _ => _ end = _ =>
            change (Version.match_at (String x s)) with (@None string)
        end; cbv iota).
  destruct (dotted a b c +:+ rest) eqn:Hd0 in |- *.
  - exfalso. rewrite Heq in Hd0. discriminate Hd0.
  - rewrite <- Hd0.
    change ("version " +:+ dotted a b c +:+ rest)
      with (String "v" ("ersion " +:+ dotted a b c +:+ rest)) in *.
    cbn [Version.re_search]. rewrite Hat. reflexivity.
Qed.

(** X9: printing and parsing a version agree.  In a banner that reads
    [cmake version a.b.c], followed by nothing or by text that does not
    start with a digit or a dot, the pattern captures exactly [a.b.c], and
    [LooseVersion] turns it into the components [a], [b], [c], for all
    numbers [a], [b], [c]. *)
Theorem banner_round_trip (a b c : nat) (rest : string) :
  stops (fun ch => Version.is_digit ch || Version.is_dot ch) rest = true ->
  Version.re_search ("cmake version " +:+ dotted a b c +:+ rest) = Some (dotted a b c)
  /\ Version.LooseVersion (dotted a b c) = [a; b; c].
Proof.
  intros Hstop. split; [apply banner_search, Hstop | apply LooseVersion_dotted].
Qed.

Lemma banner_round_trip_witness :
  Version.re_search
    ("cmake version " +:+ dotted 3 16 3 +:+ String PyStr.newline "CMake suite")
    = Some (dotted 3 16 3)
  /\ Version.LooseVersion (dotted 3 16 3) = [3; 16; 3]%nat.
Proof. apply (banner_round_trip 3 16 3). reflexivity. Defined.

(** X10: on Windows, when [cmake --version] exits with status 0 and
    prints a banner that reads [cmake version a.b.c] (followed by nothing
    or by text that does not start with a digit or a dot), the probe is
    decided by the major and minor numbers alone: it returns normally when
    [a.b] is at least 3.1 and raises the error asking for CMake 3.1.0
    when it is below; the patch number never matters. *)
Theorem windows_banner_decision (h : Host) (self : PSPBuild) (exe : string) (w : World)
    (em : list (stream * string)) (a b c : nat) (rest : string) :
  which h "cmake" = Some exe ->
  is_windows h = true ->
  os_spawn h (spawned w) (probe_spawn h) = Exited 0 em ->
  bytes_decode h (stdout_of em) = Some ("cmake version " +:+ dotted a b c +:+ rest) ->
  stops (fun ch => Version.is_digit ch || Version.is_dot ch) rest = true ->
  ((3 < a \/ (a = 3 /\ 1 <= b))%nat -> fst (version_probe h self w) = Ok tt)
  /\ ((a < 3 \/ (a = 3 /\ b = 0))%nat ->
      fst (version_probe h self w) = Raise (RuntimeError cmake_too_old)).
Proof.
  intros Hwhich Hwin Hrun Hdec Hstop.
  rewrite (probe_zero h self exe w Hwhich em Hrun), Hwin, Hdec.
  rewrite (banner_search a b c rest Hstop), LooseVersion_dotted.
  pose proof (list_lt_triple a b c 3 1 0) as Hlt.
  destruct (Version.list_lt [a; b; c] [3; 1; 0]%nat).
  - split; [|reflexivity]. intros Hge. exfalso.
    destruct Hlt as [Hlt _]. specialize (Hlt eq_refl). lia.
  - split; [reflexivity|]. intros Hbelow. exfalso.
    destruct Hlt as [_ Hlt]. assert (Hf : false = true) by (apply Hlt; lia). discriminate Hf.
Qed.

Lemma windows_banner_decision_witness :
  fst (version_probe (windows_printing ("cmake version " +:+ dotted 3 16 3)) Demo.self
         Demo.fresh) = Ok tt
  /\ fst (version_probe (windows_printing ("cmake version " +:+ dotted 2 8 12)) Demo.self
            Demo.fresh) = Raise (RuntimeError cmake_too_old).
Proof.
  split.
  - apply (proj1 (windows_banner_decision
                    (windows_printing ("cmake version " +:+ dotted 3 16 3)) Demo.self
                    "/usr/bin/cmake" Demo.fresh
                    [(Stdout, "cmake version " +:+ dotted 3 16 3)] 3 16 3 ""
                    eq_refl eq_refl eq_refl eq_refl eq_refl)).
    right. lia.
  - apply (proj2 (windows_banner_decision
                    (windows_printing ("cmake version " +:+ dotted 2 8 12)) Demo.self
                    "/usr/bin/cmake" Demo.fresh
                    [(Stdout, "cmake version " +:+ dotted 2 8 12)] 2 8 12 ""
                    eq_refl eq_refl eq_refl eq_refl eq_refl)).
    left. lia.
Defined.

(** In the order of lists a proper prefix comes first. *)
Lemma list_lt_prefix (v : list nat) (x : nat) (t : list nat) :
  Version.list_lt v (v ++ x :: t) = true.
Proof.
  induction v as [|y v IH]; [reflexivity|].
  simpl. rewrite Nat.ltb_irrefl, Nat.eqb_refl, IH. reflexivity.
Qed.

(** X11: on Windows a version printed with fewer components than 3.1.0
    and agreeing with it as far as it goes (3.1, 3, or no digit at all) is
    below 3.1.0 in the order [LooseVersion] uses: the probe raises the
    error asking for CMake 3.1.0. *)
Theorem short_version_rejected (h : Host) (self : PSPBuild) (exe : string) (w : World)
    (em : list (stream * string)) (text g : string) (x : nat) (t : list nat) :
  which h "cmake" = Some exe ->
  is_windows h = true ->
  os_spawn h (spawned w) (probe_spawn h) = Exited 0 em ->
  bytes_decode h (stdout_of em) = Some text ->
  Version.re_search text = Some g ->
  Version.LooseVersion g ++ x :: t = [3; 1; 0]%nat ->
  fst (version_probe h self w) = Raise (RuntimeError cmake_too_old).
Proof.
  intros Hwhich Hwin Hrun Hdec Hre Hprefix.
  rewrite (probe_zero h self exe w Hwhich em Hrun), Hwin, Hdec, Hre.
  rewrite <- Hprefix, list_lt_prefix. reflexivity.
Qed.

Lemma short_version_rejected_witness :
  fst (version_probe (windows_printing "cmake version 3.1") Demo.self Demo.fresh)
    = Raise (RuntimeError cmake_too_old).
Proof.
  apply (short_version_rejected (windows_printing "cmake version 3.1") Demo.self
           "/usr/bin/cmake" Demo.fresh [(Stdout, "cmake version 3.1")]
           "cmake version 3.1" "3.1" 0 []); reflexivity.
Defined.

Section AnyLength.

Lemma dotted_list_single a : dotted_list [a] = PyStr.of_nat a.
Proof. reflexivity. Qed.

Lemma dotted_list_cons a b r :
  dotted_list (a :: b :: r) = PyStr.of_nat a +:+ "." +:+ dotted_list (b :: r).
Proof. reflexivity. Qed.

(** Printing the components with dots and parsing them back. *)
Lemma LooseVersion_dotted_list r a : Version.LooseVersion (dotted_list (a :: r)) = a :: r.
Proof.
  revert a. induction r as [|b r IH]; intros a; unfold Version.LooseVersion in *.
  - rewrite dotted_list_single, <- (append_nil_r (PyStr.of_nat a)), components_of_nat.
    reflexivity.
  - rewrite dotted_list_cons, components_of_nat.
    change ("." +:+ dotted_list (b :: r)) with (String "." (dotted_list (b :: r))).
    cbn [Version.components]. change (Version.is_digit ".") with false. cbv iota.
    f_equal. apply IH.
Qed.

Lemma dotted_list_chars r a :
  all_chars (fun c => Version.is_digit c || Version.is_dot c) (dotted_list (a :: r)) = true.
Proof.
  assert (Hn : forall n,
             all_chars (fun c => Version.is_digit c || Version.is_dot c) (PyStr.of_nat n) = true).
  { intros n. apply (all_chars_weaken Version.is_digit); [|apply of_nat_digits].
    intros ch ->. reflexivity. }
  revert a. induction r as [|b r IH]; intros a.
  - rewrite dotted_list_single. apply Hn.
  - rewrite dotted_list_cons, !all_chars_app, Hn, IH. reflexivity.
Qed.

Lemma dotted_list_head r a :
  exists ch s, dotted_list (a :: r) = String ch s /\ Version.is_digit ch = true.
Proof.
  destruct (of_nat_head a) as (ch & s & Heq & Hd).
  destruct r as [|b r].
  - exists ch, s. rewrite dotted_list_single. auto.
  - exists ch, (s +:+ "." +:+ dotted_list (b :: r)).
    rewrite dotted_list_cons, Heq. auto.
Qed.

(** The pattern finds a run of digits and dots that starts with a digit
    and comes after [cmake version] and a space. *)
Lemma banner_search_run (s rest : string) :
  all_chars (fun c => Version.is_digit c || Version.is_dot c) s = true ->
  (exists ch r, s = String ch r /\ Version.is_digit ch = true) ->
  stops (fun c => Version.is_digit c || Version.is_dot c) rest = true ->
  Version.re_search ("cmake version " +:+ s +:+ rest) = Some s.
Proof.
  intros Hchars (ch & r & Heq & Hd) Hstop.
  assert (Hsp : Version.is_space ch = false).
  { unfold Version.is_digit, Version.is_space in *.
    apply andb_true_iff in Hd as [H1 H2].
    apply Nat.leb_le in H1, H2.
    apply orb_false_iff. split; apply andb_false_iff; right; apply Nat.leb_gt; lia. }
  assert (Hat : Version.match_at ("version " +:+ s +:+ rest) = Some s).
  { unfold Version.match_at.
    change (Version.strip_prefix "version" ("version " +:+ s +:+ rest))
      with (Some (String " " (s +:+ rest))).
    cbn [Version.drop_while]. change (Version.is_space " ") with true. cbv iota.
    assert (Hdrop : Version.drop_while Version.is_space (s +:+ rest) = s +:+ rest).
    { rewrite Heq. change (String ch r +:+ rest) with (String ch (r +:+ rest)).
      simpl. rewrite Hsp. reflexivity. }
    rewrite Hdrop, (take_while_app _ _ _ Hchars Hstop).
    rewrite Heq. reflexivity. }
  change ("cmake version " +:+ s +:+ rest)
    with (String "c" (String "m" (String "a" (String "k" (String "e" (String " "
            ("version " +:+ s +:+ rest))))))).
  do 6 (cbn [Version.re_search];
        match goal with
        | |- match Version.match_at (String ?x ?t) with _ => _ end = _ =>
            change (Version.match_at (String x t)) with (@None string)
        end; cbv iota).
  change ("version " +:+ s +:+ rest) with (String "v" ("ersion " +:+ s +:+ rest)) in *.
  cbn [Version.re_search]. rewrite Hat. reflexivity.
Qed.

(** A version whose leading triple is below (3, 1, 0) is below [3; 1; 0]
    in the order of lists, whatever its number of components. *)
Lemma triple_below_list_lt (v : list nat) :
  triple_ltb (leading_triple v) (3, 1, 0)%nat = true ->
  Version.list_lt v [3; 1; 0]%nat = true.
Proof.
  unfold leading_triple, triple_ltb.
  destruct v as [|a [|b [|c r]]]; simpl;
    repeat match goal with
           | |- context [(?x <? ?y)%nat] => destruct (Nat.ltb_spec x y)
           | |- context [(?x =? ?y)%nat] => destruct (Nat.eqb_spec x y)
           end; simpl; intros Hbelow; try reflexivity; try discriminate Hbelow; lia.
Qed.

End AnyLength.

(** C7: on Windows, after a successful probe, every parsed version that
    is strictly below 3.1.0 makes the probe raise the error that asks for
    CMake 3.1.0, whatever the number of its components (a version is
    below 3.1.0 when its major, minor and patch numbers, a missing one
    counting as 0, come before (3, 1, 0) in the order of triples), and
    the version 3.1.0 is accepted.  This holds of the group the pattern
    captures in any banner, and so of every banner that reads
    [cmake version] followed by the components joined by dots.  On every
    other platform the probe returns normally whatever the banner says. *)
Theorem windows_minimum_version (h : Host) (self : PSPBuild) (exe : string) (w : World)
    (em : list (stream * string)) :
  which h "cmake" = Some exe ->
  os_spawn h (spawned w) (probe_spawn h) = Exited 0 em ->
  (is_windows h = true ->
     (forall text g,
        bytes_decode h (stdout_of em) = Some text ->
        Version.re_search text = Some g ->
        (triple_ltb (leading_triple (Version.LooseVersion g)) (3, 1, 0)%nat = true ->
         fst (version_probe h self w) = Raise (RuntimeError cmake_too_old))
        /\ (Version.LooseVersion g = [3; 1; 0]%nat ->
            fst (version_probe h self w) = Ok tt))
     /\ (forall a v rest,
        stops (fun c => Version.is_digit c || Version.is_dot c) rest = true ->
        bytes_decode h (stdout_of em)
          = Some ("cmake version " +:+ dotted_list (a :: v) +:+ rest) ->
        (triple_ltb (leading_triple (a :: v)) (3, 1, 0)%nat = true ->
         fst (version_probe h self w) = Raise (RuntimeError cmake_too_old))
        /\ (a :: v = [3; 1; 0]%nat -> fst (version_probe h self w) = Ok tt)))
  /\ (is_windows h = false -> fst (version_probe h self w) = Ok tt).
Proof.
  intros Hwhich Hrun.
  rewrite (probe_zero h self exe w Hwhich em Hrun).
  split; intros ->; [|reflexivity].
  assert (Hgroup : forall text g,
             bytes_decode h (stdout_of em) = Some text ->
             Version.re_search text = Some g ->
             (triple_ltb (leading_triple (Version.LooseVersion g)) (3, 1, 0)%nat = true ->
              match bytes_decode h (stdout_of em) with
              | Some text0 =>
                  match Version.re_search text0 with
                  | Some g0 =>
                      if Version.list_lt (Version.LooseVersion g0) [3; 1; 0]%nat
                      then Raise (RuntimeError cmake_too_old)
                      else Ok tt
                  | None => Raise AttributeError
                  end
              | None => Raise UnicodeDecodeError
              end = Raise (RuntimeError cmake_too_old))
             /\ (Version.LooseVersion g = [3; 1; 0]%nat ->
                 match bytes_decode h (stdout_of em) with
                 | Some text0 =>
                     match Version.re_search text0 with
                     | Some g0 =>
                         if Version.list_lt (Version.LooseVersion g0) [3; 1; 0]%nat
                         then Raise (RuntimeError cmake_too_old)
                         else Ok tt
                     | None => Raise AttributeError
                     end
                 | None => Raise UnicodeDecodeError
                 end = Ok tt)).
  { intros text g -> ->. split.
    - intros Hlt. rewrite (triple_below_list_lt _ Hlt). reflexivity.
    - intros ->. reflexivity. }
  split; [exact Hgroup|].
  intros a v rest Hstop Hdec.
  pose proof (banner_search_run (dotted_list (a :: v)) rest
                (dotted_list_chars v a) (dotted_list_head v a) Hstop) as Hre.
  destruct (Hgroup _ _ Hdec Hre) as [Hbelow Hequal].
  rewrite LooseVersion_dotted_list in Hbelow, Hequal. split; assumption.
Qed.

Lemma windows_minimum_version_witness :
  fst (version_probe (windows_printing "cmake version 3.0.2") Demo.self Demo.fresh)
    = Raise (RuntimeError "CMake >= 3.1.0 is required on Windows")
  /\ fst (version_probe (windows_printing "cmake version 2.8.12.2") Demo.self Demo.fresh)
     = Raise (RuntimeError "CMake >= 3.1.0 is required on Windows")
  /\ fst (version_probe (windows_printing "cmake version 3.1.0") Demo.self Demo.fresh)
     = Ok tt
  /\ fst (version_probe (Demo.linux ∅) Demo.self Demo.fresh) = Ok tt.
Proof.
  split; [|split; [|split]].
  - apply (proj1 (proj1 (proj1 (windows_minimum_version
                                  (windows_printing "cmake version 3.0.2")
                                  Demo.self "/usr/bin/cmake" Demo.fresh
                                  [(Stdout, "cmake version 3.0.2")] eq_refl eq_refl)
                           eq_refl)
                    "cmake version 3.0.2" "3.0.2" eq_refl eq_refl)).
    reflexivity.
  - apply (proj1 (proj2 (proj1 (windows_minimum_version
                                  (windows_printing "cmake version 2.8.12.2")
                                  Demo.self "/usr/bin/cmake" Demo.fresh
                                  [(Stdout, "cmake version 2.8.12.2")] eq_refl eq_refl)
                           eq_refl)
                    2 [8; 12; 2] "" eq_refl eq_refl)%nat).
    reflexivity.
  - apply (proj2 (proj1 (proj1 (windows_minimum_version
                                  (windows_printing "cmake version 3.1.0")
                                  Demo.self "/usr/bin/cmake" Demo.fresh
                                  [(Stdout, "cmake version 3.1.0")] eq_refl eq_refl)
                           eq_refl)
                    "cmake version 3.1.0" "3.1.0" eq_refl eq_refl)).
    reflexivity.
  - apply (proj2 (windows_minimum_version (Demo.linux ∅) Demo.self "/usr/bin/cmake"
                    Demo.fresh [] eq_refl eq_refl)).
    reflexivity.
Defined.

(** ** More on the artifact check *)

Section CheckOutcomes.

Variable h : Host.

Lemma present_or_missing (rs : list (string * phase)) (w : World) :
  Forall (fun r => fst r ∈ fs w) rs \/ Exists (fun r => fst r ∉ fs w) rs.
Proof.
  induction rs as [|[p ph] rs IH]; [left; constructor|].
  destruct (decide (p ∈ fs w)) as [Hin | Hout].
  - destruct IH as [Hall | Hex]; [left; constructor; assumption | right].
    apply Exists_cons_tl, Hex.
  - right. apply Exists_cons_hd. exact Hout.
Qed.

Lemma run_check_all_present w :
  Forall (fun r => fst r ∈ fs w) (requirements h) ->
  run_check h w = (Ok tt, probe_all (map fst (requirements h)) w).
Proof.
  intros Hall. rewrite run_check_reqs. apply check_reqs_all_present.
  intros q Hq. apply in_map_iff in Hq as (r & <- & Hr).
  rewrite List.Forall_forall in Hall. apply Hall, Hr.
Qed.

Lemma run_check_some_missing w :
  Exists (fun r => fst r ∉ fs w) (requirements h) ->
  exists e w', run_check h w = (Raise e, w').
Proof.
  intros Hex.
  destruct (first_missing_split (requirements h) w Hex)
    as (before & path & ph & after & Hreq & Hall & Hmiss).
  rewrite run_check_reqs, Hreq, (check_reqs_first_missing before path ph after w Hall Hmiss).
  eauto.
Qed.

(** The loop only looks: it leaves processes, console and tree alone and
    asks about a prefix of the paths it is given. *)
Lemma check_reqs_read_only (rs : list (string * phase)) (w : World) :
  spawned (snd (check_reqs rs w)) = spawned w
  /\ console (snd (check_reqs rs w)) = console w
  /\ fs (snd (check_reqs rs w)) = fs w
  /\ exists n, probed (snd (check_reqs rs w)) = probed w ++ firstn n (map fst rs).
Proof.
  revert w. induction rs as [|[p ph] rs IH]; intros w.
  - simpl. repeat split. exists 0%nat. simpl. rewrite app_nil_r. reflexivity.
  - simpl. unfold bind, os_path_exists.
    destruct (bool_decide (p ∈ fs w)); simpl.
    + destruct (IH (log_probe p w)) as (Hs & Hc & Hf & n & Hp).
      rewrite Hs, Hc, Hf. repeat split.
      exists (S n). rewrite Hp. simpl. rewrite <- app_assoc. reflexivity.
    + repeat split. exists 1%nat. reflexivity.
Qed.

End CheckOutcomes.

(** X12: [run_check] returns normally exactly when every one of its five
    requirements exists; it has then asked about all five, in the order
    they are declared. *)
Theorem run_check_passes_iff (h : Host) (w : World) :
  (fst (run_check h w) = Ok tt <-> Forall (fun r => fst r ∈ fs w) (requirements h))
  /\ (Forall (fun r => fst r ∈ fs w) (requirements h) ->
      probed (snd (run_check h w)) = probed w ++ map fst (requirements h)
      /\ length (map fst (requirements h)) = 5%nat).
Proof.
  split.
  - split.
    + intros Hok. destruct (present_or_missing (requirements h) w) as [Hall | Hex]; [exact Hall|].
      destruct (run_check_some_missing h w Hex) as (e & w' & Hrun).
      rewrite Hrun in Hok. discriminate Hok.
    + intros Hall. rewrite (run_check_all_present h w Hall). reflexivity.
  - intros Hall. rewrite (run_check_all_present h w Hall). split; reflexivity.
Qed.

Lemma run_check_passes_iff_witness :
  fst (run_check (Demo.linux ∅) all_built) = Ok tt
  /\ probed (snd (run_check (Demo.linux ∅) all_built))
     = probed all_built ++ map fst (requirements (Demo.linux ∅)).
Proof.
  assert (Hall : Forall (fun r => fst r ∈ fs all_built) (requirements (Demo.linux ∅))).
  { repeat constructor; vm_compute; reflexivity. }
  split.
  - apply (proj2 (proj1 (run_check_passes_iff (Demo.linux ∅) all_built)) Hall).
  - apply (proj1 (proj2 (run_check_passes_iff (Demo.linux ∅) all_built) Hall)).
Defined.

(** X13: whatever is on disk and whether it passes or raises, [run_check]
    only looks: it starts no process, writes nothing, changes no path, and
    the paths it asks about are an initial part of its requirements in the
    order they are declared. *)
Theorem run_check_read_only (h : Host) (w : World) :
  spawned (snd (run_check h w)) = spawned w
  /\ console (snd (run_check h w)) = console w
  /\ fs (snd (run_check h w)) = fs w
  /\ exists n,
       probed (snd (run_check h w)) = probed w ++ firstn n (map fst (requirements h)).
Proof. rewrite run_check_reqs. apply check_reqs_read_only. Qed.

(** X14: packaging is gated by the check.  When a requirement is missing
    [PSPCheckSDist.run] ends as [run_check] does and the [run] of the
    packaging command is not entered, whatever it would do; when all are
    present it is entered in the world the check leaves, and its outcome
    is the outcome of the whole. *)
Theorem sdist_gated_by_check (h : Host) (sdist_run : M unit) (w : World) :
  (Exists (fun r => fst r ∉ fs w) (requirements h) ->
     PSPCheckSDist_run h sdist_run w = run_check h w
     /\ exists e, fst (PSPCheckSDist_run h sdist_run w) = Raise (PyException e))
  /\ (Forall (fun r => fst r ∈ fs w) (requirements h) ->
     PSPCheckSDist_run h sdist_run w
       = sdist_run (probe_all (map fst (requirements h)) w)).
Proof.
  unfold PSPCheckSDist_run, bind. split.
  - intros Hex.
    destruct (first_missing_split (requirements h) w Hex)
      as (before & path & ph & after & Hreq & Hall & Hmiss).
    rewrite run_check_reqs, Hreq, (check_reqs_first_missing before path ph after w Hall Hmiss).
    split; [reflexivity|]. eexists. reflexivity.
  - intros Hall. rewrite (run_check_all_present h w Hall). reflexivity.
Qed.

Lemma sdist_gated_by_check_witness :
  (PSPCheckSDist_run (Demo.linux ∅) sdist_stub half_built = run_check (Demo.linux ∅) half_built
   /\ exists e,
        fst (PSPCheckSDist_run (Demo.linux ∅) sdist_stub half_built) = Raise (PyException e))
  /\ PSPCheckSDist_run (Demo.linux ∅) sdist_stub all_built
     = sdist_stub (probe_all (map fst (requirements (Demo.linux ∅))) all_built).
Proof.
  split.
  - apply (proj1 (sdist_gated_by_check (Demo.linux ∅) sdist_stub half_built)).
    apply Exists_cons_tl, Exists_cons_hd.
    unfold half_built. simpl. intros Hin. apply elem_of_singleton_1 in Hin. discriminate.
  - apply (proj2 (sdist_gated_by_check (Demo.linux ∅) sdist_stub all_built)).
    repeat constructor; vm_compute; reflexivity.
Defined.

(** ** More on the configure arguments *)

Section Normalising.

Lemma replace_app old new (a b : string) :
  PyStr.replace old new (a +:+ b) = PyStr.replace old new a +:+ PyStr.replace old new b.
Proof.
  induction a as [|c a IH]; [reflexivity|].
  change (PyStr.replace old new (String c (a +:+ b))
          = String (if Ascii.eqb c old then new else c)
                   (PyStr.replace old new a +:+ PyStr.replace old new b)).
  simpl. f_equal. exact IH.
Qed.

Lemma replace_absent old new (s : string) :
  PyStr.has_char old s = false -> PyStr.replace old new s = s.
Proof.
  induction s as [|c s IH]; simpl; [reflexivity|].
  intros H. apply orb_false_iff in H as [Hc Hs]. rewrite Hc, (IH Hs). reflexivity.
Qed.

Lemma prefix_D_not_flag (flag a : string) :
  String.prefix "-D" a = true -> String.prefix "-D" flag = false -> a <> flag.
Proof. intros Ha Hf ->. rewrite Ha in Hf. discriminate. Qed.

End Normalising.

(** X15: off Windows every configure parameter is a [-D] definition:
    there are fifteen of them, and neither [-G] nor [-A] is among them,
    whatever PSP_GENERATOR, the detected toolset and the pointer width
    are. *)
Theorem posix_args_are_definitions (h : Host) (self : PSPBuild) (ext : PSPExtension) :
  is_windows h = false ->
  Forall (fun a => String.prefix "-D" a = true) (cmake_args h self ext)
  /\ length (cmake_args h self ext) = 15%nat
  /\ ~ In "-G" (cmake_args h self ext)
  /\ ~ In "-A" (cmake_args h self ext).
Proof.
  intros Hposix.
  assert (Hall : Forall (fun a => String.prefix "-D" a = true) (cmake_args h self ext)).
  { unfold cmake_args. rewrite Hposix. unfold cmake_args_common.
    repeat (apply Forall_cons; split); try apply Forall_nil; reflexivity. }
  split; [exact Hall|]. split.
  - unfold cmake_args. rewrite Hposix. reflexivity.
  - rewrite List.Forall_forall in Hall.
    split; intros Hin; apply Hall in Hin; discriminate Hin.
Qed.

Lemma posix_args_are_definitions_witness :
  Forall (fun a => String.prefix "-D" a = true)
         (cmake_args (Demo.linux {[ "PSP_GENERATOR" := "Ninja" ]}) Demo.self Demo.ext)
  /\ length (cmake_args (Demo.linux {[ "PSP_GENERATOR" := "Ninja" ]}) Demo.self Demo.ext)
     = 15%nat
  /\ ~ In "-G" (cmake_args (Demo.linux {[ "PSP_GENERATOR" := "Ninja" ]}) Demo.self Demo.ext)
  /\ ~ In "-A" (cmake_args (Demo.linux {[ "PSP_GENERATOR" := "Ninja" ]}) Demo.self Demo.ext).
Proof.
  apply (posix_args_are_definitions (Demo.linux {[ "PSP_GENERATOR" := "Ninja" ]})).
  reflexivity.
Defined.

(** X16: paths that hold no backslash reach the configure step as they
    are.  When none of the six paths that go into the parameters (the
    library output directory, the interpreter and its prefix, the cmake
    module directory, the source directory and the Python source
    directory) contains a backslash, each parameter is its key followed by
    the path unchanged. *)
Theorem clean_paths_verbatim (h : Host) (self : PSPBuild) (ext : PSPExtension) :
  Forall (fun p => PyStr.has_char PyStr.backslash p = false)
    [ os_path_abspath h (os_path_join h (extdir h self ext) ["perspective"; "table"]);
      sys_executable h;
      sys_prefix h;
      os_path_join h (sourcedir ext) ["cmake"];
      sourcedir ext;
      os_path_join h (sourcedir ext) [".."; "perspective"] ] ->
  cmake_args_common h self ext
    = [ "-DCMAKE_LIBRARY_OUTPUT_DIRECTORY="
          +:+ os_path_abspath h (os_path_join h (extdir h self ext) ["perspective"; "table"]);
        "-DCMAKE_BUILD_TYPE=" +:+ cfg self;
        "-DPSP_CPP_BUILD=1";
        "-DPSP_WASM_BUILD=0";
        "-DPSP_PYTHON_BUILD=1";
        "-DPSP_PYTHON_VERSION=" +:+ PYTHON_VERSION h;
        "-DPython_ADDITIONAL_VERSIONS=" +:+ PYTHON_VERSION h;
        "-DPython_FIND_VERSION=" +:+ PYTHON_VERSION h;
        "-DPython_EXECUTABLE=" +:+ sys_executable h;
        "-DPython_ROOT_DIR=" +:+ sys_prefix h;
        "-DPython_ROOT=" +:+ sys_prefix h;
        "-DPSP_CMAKE_MODULE_PATH=" +:+ os_path_join h (sourcedir ext) ["cmake"];
        "-DPSP_CPP_SRC=" +:+ sourcedir ext;
        "-DPSP_PYTHON_SRC=" +:+ os_path_join h (sourcedir ext) [".."; "perspective"] ].
Proof.
  intros Hclean. rewrite List.Forall_forall in Hclean.
  assert (Hid : forall p,
             In p [ os_path_abspath h
                      (os_path_join h (extdir h self ext) ["perspective"; "table"]);
                    sys_executable h; sys_prefix h;
                    os_path_join h (sourcedir ext) ["cmake"]; sourcedir ext;
                    os_path_join h (sourcedir ext) [".."; "perspective"] ] ->
             PyStr.replace PyStr.backslash PyStr.slash p = p).
  { intros p Hp. apply replace_absent, Hclean, Hp. }
  unfold cmake_args_common. rewrite !replace_app.
  rewrite (Hid (os_path_abspath h
                  (os_path_join h (extdir h self ext) ["perspective"; "table"])))
    by (simpl; tauto).
  rewrite (Hid (sys_executable h)) by (simpl; tauto).
  rewrite (Hid (sys_prefix h)) by (simpl; tauto).
  rewrite (Hid (os_path_join h (sourcedir ext) ["cmake"])) by (simpl; tauto).
  rewrite (Hid (sourcedir ext)) by (simpl; tauto).
  rewrite (Hid (os_path_join h (sourcedir ext) [".."; "perspective"])) by (simpl; tauto).
  reflexivity.
Qed.

Lemma clean_paths_verbatim_witness :
  nth 12 (cmake_args_common (Demo.linux ∅) Demo.self Demo.ext) ""
    = "-DPSP_CPP_SRC=" +:+ sourcedir Demo.ext.
Proof.
  rewrite (clean_paths_verbatim (Demo.linux ∅) Demo.self Demo.ext).
  - reflexivity.
  - repeat constructor.
Defined.

(** ** The requirement lists *)

(** X17: for every interpreter, each install requirement is also a
    requirement of both development extras, and the backport of [which]
    is required, by installation and by both extras, exactly when the
    major version is below 3. *)
Theorem dev_extras_include_requirements (major : nat) :
  incl (Setup.requires major) (Setup.requires_dev_py2 major)
  /\ incl (Setup.requires_dev_py2 major) (Setup.requires_dev major)
  /\ (In "backports.shutil-which" (Setup.requires major) <-> (major < 3)%nat)
  /\ (In "backports.shutil-which" (Setup.requires_dev_py2 major) <-> (major < 3)%nat)
  /\ (In "backports.shutil-which" (Setup.requires_dev major) <-> (major < 3)%nat).
Proof.
  split; [|split].
  - unfold Setup.requires_dev_py2. intros x Hx. apply in_or_app. right. exact Hx.
  - unfold Setup.requires_dev. intros x Hx. apply in_or_app. right. exact Hx.
  - unfold Setup.requires_dev, Setup.requires_dev_py2, Setup.requires.
    destruct (Nat.ltb_spec major 3) as [Hlt | Hge]; simpl;
      repeat split; intros H; try lia; try tauto;
      repeat (destruct H as [H | H]; [discriminate H|]); try contradiction; lia.
Qed.

(** ** The errors of the probe *)

Section ProbeOutcomes.

Variable h : Host.
Variable self : PSPBuild.
Variable w : World.

(** The probe starts at most one process, the version command, and
    changes nothing on disk. *)
Lemma version_probe_footprint :
  (spawned (snd (version_probe h self w)) = spawned w
   \/ spawned (snd (version_probe h self w)) = spawned w ++ [probe_spawn h])
  /\ fs (snd (version_probe h self w)) = fs w
  /\ probed (snd (version_probe h self w)) = probed w.
Proof.
  unfold version_probe, bind, except_OSError, check_output, bind, popen_wait, raise, ret.
  simpl. fold (probe_cmd h). fold (probe_spawn h).
  destruct (which h "cmake") as [exe|]; simpl; [|auto].
  destruct (os_spawn h (spawned w) (probe_spawn h)) as [|rc em]; simpl; [auto|].
  destruct (rc =? 0)%Z; simpl; [|auto].
  destruct (is_windows h); simpl; [|auto].
  destruct (bytes_decode h (stdout_of em)) as [text|]; simpl; [|auto].
  destruct (Version.re_search text) as [g|]; simpl; [|auto].
  destruct (Version.lt_str _ _); simpl; auto.
Qed.

End ProbeOutcomes.

(** X18: any error of the probe ends the run before the first configure
    step.  When [version_probe] raises, for whatever reason, [run_cmake]
    ends with the same error in the same world; at most the version
    command has been started, and nothing on disk has been created or
    looked for. *)
Theorem probe_error_ends_run (h : Host) (self : PSPBuild) (w : World) (e : exn) :
  fst (version_probe h self w) = Raise e ->
  run_cmake h self w = version_probe h self w
  /\ (spawned (snd (run_cmake h self w)) = spawned w
      \/ spawned (snd (run_cmake h self w)) = spawned w ++ [probe_spawn h])
  /\ fs (snd (run_cmake h self w)) = fs w
  /\ probed (snd (run_cmake h self w)) = probed w.
Proof.
  intros Hraise.
  assert (Hrun : run_cmake h self w = version_probe h self w).
  { destruct (version_probe h self w) as [r w'] eqn:Hvp. simpl in Hraise. subst r.
    apply (run_cmake_probe_raises h self w e w' Hvp). }
  rewrite Hrun. split; [reflexivity|]. apply version_probe_footprint.
Qed.

Lemma probe_error_ends_run_witness :
  run_cmake (windows_printing "cmake version 2.8.12") Demo.self Demo.fresh
    = version_probe (windows_printing "cmake version 2.8.12") Demo.self Demo.fresh
  /\ (spawned (snd (run_cmake (windows_printing "cmake version 2.8.12") Demo.self Demo.fresh))
      = spawned Demo.fresh
      \/ spawned (snd (run_cmake (windows_printing "cmake version 2.8.12") Demo.self
                         Demo.fresh))
         = spawned Demo.fresh ++ [probe_spawn (windows_printing "cmake version 2.8.12")])
  /\ fs (snd (run_cmake (windows_printing "cmake version 2.8.12") Demo.self Demo.fresh))
     = fs Demo.fresh
  /\ probed (snd (run_cmake (windows_printing "cmake version 2.8.12") Demo.self Demo.fresh))
     = probed Demo.fresh.
Proof.
  apply (probe_error_ends_run (windows_printing "cmake version 2.8.12") Demo.self Demo.fresh
           (RuntimeError cmake_too_old)).
  vm_compute. reflexivity.
Defined.

(** X19: the errors the probe can raise.  An exception that leaves
    [version_probe] is [TypeError] (and then [which] had found nothing),
    the error naming CMake as required, the [CalledProcessError] of the
    version command with a nonzero status and its captured output, or, on
    Windows only, one of the three errors of the version test: an
    undecodable banner, a banner without a version, a version below
    3.1.0. *)
Theorem version_probe_errors (h : Host) (self : PSPBuild) (w : World) (e : exn) :
  fst (version_probe h self w) = Raise e ->
  (e = TypeError /\ which h "cmake" = None)
  \/ e = RuntimeError (cmake_missing self)
  \/ (exists rc out, rc <> 0%Z /\ e = CalledProcessError rc (probe_cmd h) (Some out))
  \/ (is_windows h = true
      /\ (e = UnicodeDecodeError \/ e = AttributeError \/ e = RuntimeError cmake_too_old)).
Proof.
  unfold version_probe, bind, except_OSError, check_output, bind, popen_wait, raise, ret.
  simpl. fold (probe_cmd h).
  destruct (which h "cmake") as [exe|] eqn:Hwhich; simpl; [|intros [= <-]; auto].
  destruct (os_spawn h (spawned w) _) as [|rc em]; simpl; [intros [= <-]; auto|].
  destruct (Z.eqb_spec rc 0) as [-> | Hrc]; simpl.
  - destruct (is_windows h); simpl; [|discriminate].
    destruct (bytes_decode h (stdout_of em)) as [text|]; simpl;
      [|intros [= <-]; auto 10].
    destruct (Version.re_search text) as [g|]; simpl; [|intros [= <-]; auto 10].
    destruct (Version.lt_str _ _); simpl; [intros [= <-]; auto 10 | discriminate].
  - intros [= <-]. right. right. left. exists rc, (stdout_of em). auto.
Qed.

Lemma version_probe_errors_witness :
  (AttributeError = TypeError
   /\ which (windows_printing "cmake (no release information)") "cmake" = None)
  \/ AttributeError = RuntimeError (cmake_missing Demo.self)
  \/ (exists rc out,
        rc <> 0%Z
        /\ AttributeError
           = CalledProcessError rc
               (probe_cmd (windows_printing "cmake (no release information)")) (Some out))
  \/ (is_windows (windows_printing "cmake (no release information)") = true
      /\ (AttributeError = UnicodeDecodeError
          \/ AttributeError = AttributeError
          \/ AttributeError = RuntimeError cmake_too_old)).
Proof.
  apply (version_probe_errors (windows_printing "cmake (no release information)") Demo.self
           Demo.fresh).
  vm_compute. reflexivity.
Defined.
